(** * ATtiny85 white-light controller: a shallow embedding of [src/main.cpp]

    The firmware drives two PWM channels (cold white, warm white) from NEC
    remote-control commands.  The functions of [main.cpp] are embedded below
    under their own names.  The target is an ATtiny85 compiled with avr-gcc,
    so [int] has 16 bits: [uint8_t] operands are promoted to 16-bit integers
    and [uint16_t] arithmetic wraps modulo 65536.  Integers are modelled as
    [Z] with the wrap-around written out. *)

From Stdlib Require Import ZArith List Bool Lia Sorted Uint63.
From stdpp Require Import base list.
Import ListNotations.

Local Open Scope Z_scope.

(** ** Machine integers *)

Definition u8 (x : Z) : Z := x mod 256.
Definition u16 (x : Z) : Z := x mod 65536.
Definition i16 (x : Z) : Z := (x + 32768) mod 65536 - 32768.

(** Arduino's [constrain(amt, low, high)] macro. *)
Definition constrain (amt low high : Z) : Z :=
  if amt <? low then low else if amt >? high then high else amt.

(** Unsigned 16-bit division; the divisor zero has no defined result. *)
Definition udiv16 (a b : Z) : option Z :=
  if u16 b =? 0 then None else Some (u16 a / u16 b).

(** ** Data *)

(** [struct PWMdata]. *)
Record PWMdata : Type := mkPWM { coldWhite : Z; warmWhite : Z }.

(** [presets[5][2]]. *)
Definition presets : list PWMdata :=
  [mkPWM 255 1; mkPWM 255 128; mkPWM 255 255; mkPWM 128 255; mkPWM 1 255].

Definition preset (i : Z) : PWMdata :=
  default (mkPWM 0 0) (presets !! Z.to_nat i).

Definition EEPROM_COLD_WHITE_ADDR : nat := 0.
Definition EEPROM_WARM_WHITE_ADDR : nat := 1.

(** What the firmware does to the outside world, in program order. *)
Inductive event : Type :=
| EvPWM (white : PWMdata)          (* a call of [setPWM] with its argument *)
| EvDelay (time : Z)               (* a call of [mdelay] with its argument *)
| EvEEPROM (addr : nat) (val : Z). (* a call of [EEPROM.update] *)

(** The globals of [main.cpp], the two compare registers of Timer1, the
    EEPROM cells and the trace of events. *)
Record state : Type := mkState {
  whiteColor : PWMdata;
  brightness : Z;
  current_preset : Z;
  is_on : bool;
  is_night : bool;
  OCR1A : Z;
  OCR1B : Z;
  EEPROM : list Z;
  trace : list event
}.

(** [whiteColor = {128, 128}], [brightness = 128], ... at reset, over a given
    EEPROM content. *)
Definition initial_state (rom : list Z) : state :=
  mkState (mkPWM 128 128) 128 0 true false 0 0 rom [].

(** ** A state and error monad for the firmware's procedures *)

Definition M (A : Type) : Type := state -> option (A * state).

Definition ret {A} (a : A) : M A := fun s => Some (a, s).
Definition bind {A B} (m : M A) (k : A -> M B) : M B :=
  fun s => match m s with
           | Some (a, s') => k a s'
           | None => None
           end.
Definition lift {A} (o : option A) : M A :=
  fun s => match o with Some a => Some (a, s) | None => None end.
Definition get : M state := fun s => Some (s, s).
Definition modify (f : state -> state) : M unit := fun s => Some (tt, f s).

Notation "x <- m ;; k" := (bind m (fun x => k))
  (at level 100, m at next level, right associativity).
Notation "m ;;; k" := (bind m (fun _ => k))
  (at level 100, right associativity).

Definition set_whiteColor (w : PWMdata) (s : state) : state :=
  mkState w (brightness s) (current_preset s) (is_on s) (is_night s)
          (OCR1A s) (OCR1B s) (EEPROM s) (trace s).
Definition set_brightness (b : Z) (s : state) : state :=
  mkState (whiteColor s) b (current_preset s) (is_on s) (is_night s)
          (OCR1A s) (OCR1B s) (EEPROM s) (trace s).
Definition set_current_preset (p : Z) (s : state) : state :=
  mkState (whiteColor s) (brightness s) p (is_on s) (is_night s)
          (OCR1A s) (OCR1B s) (EEPROM s) (trace s).
Definition set_is_on (b : bool) (s : state) : state :=
  mkState (whiteColor s) (brightness s) (current_preset s) b (is_night s)
          (OCR1A s) (OCR1B s) (EEPROM s) (trace s).
Definition set_is_night (b : bool) (s : state) : state :=
  mkState (whiteColor s) (brightness s) (current_preset s) (is_on s) b
          (OCR1A s) (OCR1B s) (EEPROM s) (trace s).
Definition set_OCR (a b : Z) (s : state) : state :=
  mkState (whiteColor s) (brightness s) (current_preset s) (is_on s)
          (is_night s) a b (EEPROM s) (trace s).
Definition set_EEPROM (rom : list Z) (s : state) : state :=
  mkState (whiteColor s) (brightness s) (current_preset s) (is_on s)
          (is_night s) (OCR1A s) (OCR1B s) rom (trace s).
Definition emit (e : event) (s : state) : state :=
  mkState (whiteColor s) (brightness s) (current_preset s) (is_on s)
          (is_night s) (OCR1A s) (OCR1B s) (EEPROM s) (trace s ++ [e]).

(** ** The procedures of [main.cpp] *)

(** [mdelay]: a busy wait; only the call is recorded. *)
Definition mdelay (time : Z) : M unit := modify (emit (EvDelay (u16 time))).

(** The two values [newColdWhitePWM], [newWarmWhitePWM] that [setBrightness]
    computes before it clamps them. *)
Definition setBrightness_raw (brightness : Z) (white : PWMdata)
  : option (Z * Z) :=
  let scaleFactor := 100 in
  if coldWhite white >=? warmWhite white then
    let newColdWhitePWM := brightness in
    match udiv16 (u16 (u16 (coldWhite white * scaleFactor)
                       + u16 (warmWhite white * 9) / 10))
                 (warmWhite white) with
    | None => None
    | Some temp =>
      match udiv16 (u16 (u16 (brightness * scaleFactor) + u16 (temp * 9) / 10))
                   temp with
      | None => None
      | Some newWarmWhitePWM => Some (newColdWhitePWM, newWarmWhitePWM)
      end
    end
  else
    let newWarmWhitePWM := brightness in
    match udiv16 (u16 (u16 (warmWhite white * scaleFactor)
                       + u16 (coldWhite white * 9) / 10))
                 (coldWhite white) with
    | None => None
    | Some temp =>
      match udiv16 (u16 (u16 (brightness * scaleFactor) + u16 (temp * 9) / 10))
                   temp with
      | None => None
      | Some newColdWhitePWM => Some (newColdWhitePWM, newWarmWhitePWM)
      end
    end.

(** [setBrightness]: the computed pair, each channel constrained to 1..255. *)
Definition setBrightness (brightness : Z) (white : PWMdata) : option PWMdata :=
  match setBrightness_raw brightness white with
  | None => None
  | Some (newColdWhitePWM, newWarmWhitePWM) =>
    Some (mkPWM (u8 (constrain newColdWhitePWM 1 255))
                (u8 (constrain newWarmWhitePWM 1 255)))
  end.

(** [setPWM]: the value 1 switches a channel off. *)
Definition setPWM (white : PWMdata) : M unit :=
  modify (fun s =>
    emit (EvPWM white)
      (set_OCR (if coldWhite white =? 1 then 0 else coldWhite white)
               (if warmWhite white =? 1 then 0 else warmWhite white) s)).

(** The body of the [for] loop of [fadePWM], run [n] more times. *)
Fixpoint fade_loop (n : nat) (stepCold stepWarm stepDelay : Z)
         (currentCold currentWarm : Z) : M unit :=
  match n with
  | O => ret tt
  | S n' =>
    setPWM (mkPWM (u8 (constrain currentCold 1 255))
                  (u8 (constrain currentWarm 1 255))) ;;;
    mdelay stepDelay ;;;
    fade_loop n' stepCold stepWarm stepDelay
              (i16 (currentCold + stepCold)) (i16 (currentWarm + stepWarm))
  end.

Definition steps : Z := 50.

(** [fadePWM]; [i] runs from 0 to [steps] inclusive. *)
Definition fadePWM (start stop : PWMdata) (durationMs : Z) : M unit :=
  let stepDelay := i16 (Z.quot durationMs steps) in
  let stepCold := i16 (Z.quot (coldWhite stop - coldWhite start) steps) in
  let stepWarm := i16 (Z.quot (warmWhite stop - warmWhite start) steps) in
  fade_loop (S (Z.to_nat steps)) stepCold stepWarm stepDelay
            (coldWhite start) (warmWhite start) ;;;
  setPWM stop.

(** The default argument of [fadePWM]. *)
Definition default_durationMs : Z := 500.

Definition EEPROM_read (addr : nat) : M Z :=
  s <- get ;; ret (default 255 (EEPROM s !! addr)).

Definition EEPROM_update (addr : nat) (val : Z) : M unit :=
  modify (fun s => emit (EvEEPROM addr val)
                        (set_EEPROM (<[addr := val]> (EEPROM s)) s)).

(** [readColor]. *)
Definition readColor : M PWMdata :=
  c <- EEPROM_read EEPROM_COLD_WHITE_ADDR ;;
  w <- EEPROM_read EEPROM_WARM_WHITE_ADDR ;;
  ret (mkPWM c w).

(** [getBrightness]: the comparison reads the warm channel of the global
    [whiteColor], not of its argument. *)
Definition getBrightness (color : PWMdata) : M Z :=
  s <- get ;;
  ret (if coldWhite color >? warmWhite (whiteColor s)
       then coldWhite color else warmWhite color).

Definition increment : Z := 4.

(** The guarded steps of [processNECCommand], written there once for the
    brightness and once for each channel:
    [if (x < (255-increment)) x += increment; else x = 255;],
    [if (x >= increment) x -= increment; else x = 0;] and
    [if (x == 0) x = 1;]. *)
Definition step_up (x : Z) : Z :=
  if x <? u16 (255 - increment) then u8 (x + increment) else 255.
Definition step_down (x : Z) : Z :=
  if x >=? increment then u8 (x - increment) else 0.
Definition at_least_one (x : Z) : Z := if x =? 0 then 1 else x.

(** [processNECCommand]: a [switch] without a [default] label. *)
Definition processNECCommand (command : Z) : M unit :=
  if command =? 69 then (* On-Off toggle *)
    s <- get ;;
    modify (set_is_on (negb (is_on s))) ;;;
    if negb (is_on s)
    then fadePWM (mkPWM 0 0) (whiteColor s) default_durationMs
    else fadePWM (whiteColor s) (mkPWM 0 0) default_durationMs
  else if command =? 71 then (* Select presettings 0..4 *)
    s <- get ;;
    let p := u8 (Z.rem (current_preset s + 1) 5) in
    modify (set_current_preset p) ;;;
    newColor <- lift (setBrightness (brightness s) (preset p)) ;;
    fadePWM (whiteColor s) newColor default_durationMs ;;;
    modify (set_whiteColor newColor)
  else if command =? 9 then (* brighter *)
    s <- get ;;
    let b := step_up (brightness s) in
    modify (set_brightness b) ;;;
    newColor <- lift (setBrightness b (whiteColor s)) ;;
    modify (set_whiteColor newColor) ;;;
    setPWM newColor
  else if command =? 7 then (* darker *)
    s <- get ;;
    let b := step_down (brightness s) in
    modify (set_brightness b) ;;;
    newColor <- lift (setBrightness b (whiteColor s)) ;;
    modify (set_whiteColor newColor) ;;;
    setPWM newColor
  else if command =? 25 then (* colder white *)
    s <- get ;;
    let c := at_least_one (step_up (coldWhite (whiteColor s))) in
    let w := at_least_one (step_down (warmWhite (whiteColor s))) in
    modify (set_whiteColor (mkPWM c w)) ;;;
    modify (set_brightness (if c >? w then c else w)) ;;;
    setPWM (mkPWM c w)
  else if command =? 64 then (* warmer white *)
    s <- get ;;
    let w := at_least_one (step_up (warmWhite (whiteColor s))) in
    let c := at_least_one (step_down (coldWhite (whiteColor s))) in
    modify (set_whiteColor (mkPWM c w)) ;;;
    modify (set_brightness (if c >? w then c else w)) ;;;
    setPWM (mkPWM c w)
  else if command =? 8 then (* Nightlight *)
    s <- get ;;
    modify (set_is_night (negb (is_night s))) ;;;
    if negb (is_night s) then
      dim <- lift (setBrightness 5 (preset 4)) ;;
      fadePWM (whiteColor s) dim default_durationMs
    else
      color <- readColor ;;
      modify (set_whiteColor color) ;;;
      b <- getBrightness color ;;
      modify (set_brightness b) ;;;
      dim <- lift (setBrightness 5 (preset 4)) ;;
      fadePWM dim color default_durationMs
  else if command =? 12 then (* 10% *)
    s <- get ;;
    newColor <- lift (setBrightness 25 (whiteColor s)) ;;
    fadePWM (whiteColor s) newColor default_durationMs ;;;
    modify (set_whiteColor newColor)
  else if command =? 24 then (* 50% *)
    s <- get ;;
    newColor <- lift (setBrightness 128 (whiteColor s)) ;;
    fadePWM (whiteColor s) newColor default_durationMs ;;;
    modify (set_whiteColor newColor)
  else if command =? 94 then (* 100% *)
    s <- get ;;
    newColor <- lift (setBrightness 255 (whiteColor s)) ;;
    fadePWM (whiteColor s) newColor default_durationMs ;;;
    modify (set_whiteColor newColor)
  else if command =? 28 then (* D1: Store current color temperatur *)
    s <- get ;;
    EEPROM_update EEPROM_COLD_WHITE_ADDR (coldWhite (whiteColor s)) ;;;
    EEPROM_update EEPROM_WARM_WHITE_ADDR (warmWhite (whiteColor s)) ;;;
    setPWM (mkPWM 0 0) ;;;
    mdelay 200 ;;;
    setPWM (whiteColor s)
  else ret tt.

(** [setup], after the pins and the timer are initialised. *)
Definition setup : M unit :=
  color <- readColor ;;
  modify (set_whiteColor color) ;;;
  b <- getBrightness color ;;
  modify (set_brightness b) ;;;
  fadePWM (mkPWM 0 0) color default_durationMs.

(** ** Reading a run *)

Definition exec {A} (m : M A) (s : state) : option state :=
  match m s with Some (_, s') => Some s' | None => None end.

(** The arguments of the [setPWM] calls of a trace, oldest first. *)
Fixpoint pwm_values (t : list event) : list PWMdata :=
  match t with
  | [] => []
  | EvPWM w :: t' => w :: pwm_values t'
  | _ :: t' => pwm_values t'
  end.

Definition in_u8 (x : Z) : Prop := 0 <= x <= 255.
Definition in_duty (x : Z) : Prop := 1 <= x <= 255.


(** A colour whose two channels are bytes, and one whose channels are both
    switched on (the range 1..255 that [setBrightness] hands out). *)
Definition wf_PWM (w : PWMdata) : Prop :=
  in_u8 (coldWhite w) /\ in_u8 (warmWhite w).
Definition valid_color (w : PWMdata) : Prop :=
  in_duty (coldWhite w) /\ in_duty (warmWhite w).

(** The fixed-point ratio [temp] of a dominant channel [d] over a recessive
    channel [r], and the recessive value it gives at brightness [b]. *)
Definition ratio100 (d r : Z) : Z := (d * 100 + r * 9 / 10) / r.
Definition apply100 (b temp : Z) : Z := (b * 100 + u16 (temp * 9) / 10) / temp.

(** The colours the loop of [fadePWM] hands to [setPWM], in order. *)
Fixpoint fade_values (n : nat) (stepCold stepWarm : Z)
         (currentCold currentWarm : Z) : list PWMdata :=
  match n with
  | O => []
  | S n' =>
    mkPWM (u8 (constrain currentCold 1 255)) (u8 (constrain currentWarm 1 255))
    :: fade_values n' stepCold stepWarm
         (i16 (currentCold + stepCold)) (i16 (currentWarm + stepWarm))
  end.

Definition fade_steps (start stop : PWMdata) : list PWMdata :=
  fade_values (S (Z.to_nat steps))
    (i16 (Z.quot (coldWhite stop - coldWhite start) steps))
    (i16 (Z.quot (warmWhite stop - warmWhite start) steps))
    (coldWhite start) (warmWhite start).

(** Two states that agree on the globals of [main.cpp] and on the EEPROM;
    the compare registers and the trace may differ. *)
Definition same_globals (s s' : state) : Prop :=
  whiteColor s' = whiteColor s /\ brightness s' = brightness s /\
  current_preset s' = current_preset s /\ is_on s' = is_on s /\
  is_night s' = is_night s /\ EEPROM s' = EEPROM s.

(** The [case] labels of [processNECCommand]. *)
Definition recognized : list Z := [69; 71; 9; 7; 25; 64; 8; 12; 24; 94; 28].

(** The three fixed-level commands with the brightness each one asks for. *)
Definition fixed_levels : list (Z * Z) := [(12, 25); (24, 128); (94, 255)].

(** The state after a brightness step to [b], given the colour [r] that
    [setBrightness] returned. *)
Definition stepped (b : Z) (r : PWMdata) (s : state) : state :=
  emit (EvPWM r)
    (set_OCR (if coldWhite r =? 1 then 0 else coldWhite r)
             (if warmWhite r =? 1 then 0 else warmWhite r)
             (set_whiteColor r (set_brightness b s))).

(** The colour [readColor] finds in the EEPROM. *)
Definition persisted (s : state) : PWMdata :=
  mkPWM (default 255 (EEPROM s !! EEPROM_COLD_WHITE_ADDR))
        (default 255 (EEPROM s !! EEPROM_WARM_WHITE_ADDR)).

(** What the firmware maintains: the current and the stored colour have
    both channels in 1..255, so that [setBrightness] never divides by zero. *)
Definition inv (s : state) : Prop :=
  valid_color (whiteColor s) /\ in_u8 (brightness s) /\
  0 <= current_preset s < 5 /\ valid_color (persisted s).

(** Two concrete states: the reset state over an erased EEPROM, and a state
    in night mode whose EEPROM holds the colour {200, 100}. *)
Definition reset_state : state := initial_state [255; 255].
Definition night_state : state :=
  set_is_night true (initial_state [200; 100]).
Definition cold_state : state := set_whiteColor (mkPWM 253 2) reset_state.

(** ** The scaler on machine integers

    The same arithmetic on 63-bit integers, where the whole input space of
    [setBrightness] (256 brightness values, 255 x 255 colours) is small
    enough to be enumerated. *)
Module Fast.
Local Open Scope uint63_scope.

Definition ratio (d r : int) : int := (d * 100 + r * 9 / 10) / r.
Definition apply (b temp : int) : int :=
  (b * 100 + ((temp * 9) mod 65536) / 10) / temp.
Definition clamp (x : int) : int :=
  if x <? 1 then 1 else if 255 <? x then 255 else x.
Definition scale (b c w : int) : int * int :=
  if w <=? c then (clamp b, clamp (apply b (ratio c w)))
  else (clamp (apply b (ratio w c)), clamp b).

(** Scaling the scaled colour once more gives it back. *)
Definition fixed (b c w : int) : bool :=
  let r := scale b c w in
  let r' := scale b (fst r) (snd r) in
  (fst r' =? fst r) && (snd r' =? snd r).

(** [p] holds at [i], [i + 1], ..., [i + n - 1]. *)
Fixpoint all_from (n : nat) (i : int) (p : int -> bool) : bool :=
  match n with
  | O => true
  | S n' => p i && all_from n' (i + 1) p
  end.
End Fast.

(** ** Further notions for the properties below *)

(** The scaled recessive channel [x] of [Fast.apply] against the exact ratio
    [b * r / d], cleared of the division: [b*r - 3*d < x*d < b*r + 2*d]. *)
Definition accurate63 (b d r : int) : bool :=
  (let x := Fast.apply b (Fast.ratio d r) in
   (b * r <? x * d + 3 * d) && (x * d <? b * r + 2 * d))%uint63.

(** The arguments of the [mdelay] calls of a trace, oldest first. *)
Fixpoint delay_values (t : list event) : list Z :=
  match t with
  | [] => []
  | EvDelay d :: t' => d :: delay_values t'
  | _ :: t' => delay_values t'
  end.

(** Step [k] of a fade without 16-bit wrap-around: the start value plus [k]
    truncated step widths, constrained to 1..255. *)
Definition fade_point (start stop : PWMdata) (k : nat) : PWMdata :=
  mkPWM (constrain (coldWhite start
                    + Z.of_nat k * Z.quot (coldWhite stop - coldWhite start) steps)
                   1 255)
        (constrain (warmWhite start
                    + Z.of_nat k * Z.quot (warmWhite stop - warmWhite start) steps)
                   1 255).

(** The channel [f] of the colours of [l], related by [R] from every
    position to every later one. *)
Definition monotone_on (f : PWMdata -> Z) (R : Z -> Z -> Prop)
           (l : list PWMdata) : Prop :=
  forall (i j : nat) x y,
    (i <= j)%nat -> l !! i = Some x -> l !! j = Some y -> R (f x) (f y).

(** [brightness] agrees with the larger channel of [whiteColor]. *)
Definition linked (s : state) : Prop :=
  Z.max (coldWhite (whiteColor s)) (warmWhite (whiteColor s))
  = Z.max 1 (brightness s).

(** [processNECCommand] called with one command after the other. *)
Fixpoint run_commands (cs : list Z) : M unit :=
  match cs with
  | [] => ret tt
  | c :: cs' => processNECCommand c ;;; run_commands cs'
  end.

(** The colour with its two channels exchanged. *)
Definition swap (w : PWMdata) : PWMdata := mkPWM (warmWhite w) (coldWhite w).

(** The colour of the night light, [setBrightness(5, presets[4])]. *)
Definition night_color : PWMdata := mkPWM 1 5.

(** [IRMP_DATA] of the IRMP library, reduced to the fields [loop] reads. *)
Module Irmp.
Record IRMP_DATA : Type := mkIRMP {
  protocol : Z;
  address : Z;
  command : Z;
  flags : Z
}.
End Irmp.

(** [loop]: one poll of the receiver.  [irmp_get_data] either has nothing
    ([None]) or fills [irmp_data].  The protocol numbers come from the IRMP
    library and are left open. *)
Section Loop.
Variables IRMP_NEC_PROTOCOL IRMP_ONKYO_PROTOCOL : Z.

Definition loop (received : option Irmp.IRMP_DATA) : M unit :=
  match received with
  | None => ret tt
  | Some irmp_data =>
    if negb (Irmp.protocol irmp_data =? IRMP_ONKYO_PROTOCOL) then
      if (Irmp.protocol irmp_data =? IRMP_NEC_PROTOCOL)
         && (Irmp.address irmp_data =? 0) then
        if (Irmp.flags irmp_data =? 0)
           || ((Irmp.command irmp_data =? 7)
               || (Irmp.command irmp_data =? 9)
               || (Irmp.command irmp_data =? 25)
               || (Irmp.command irmp_data =? 64))
        then processNECCommand (Irmp.command irmp_data)
        else ret tt
      else ret tt
    else ret tt
  end.

Fixpoint run_loop (received : list (option Irmp.IRMP_DATA)) : M unit :=
  match received with
  | [] => ret tt
  | r :: rest => loop r ;;; run_loop rest
  end.

Definition firmware (received : list (option Irmp.IRMP_DATA)) : M unit :=
  setup ;;; run_loop received.
End Loop.

(** The busy wait of [mdelay], counted in executions of its [asm] block:
    the inner loop [for (i = 0; i < 700; i++)] and the outer loop
    [for (j = 1; j < time; j++)], each with a 16-bit counter.  [None] is a
    loop that has not ended when the fuel is used up. *)
Fixpoint mdelay_inner (fuel : nat) (i blocks : Z) : option Z :=
  match fuel with
  | O => None
  | S fuel' =>
    if i <? 700 then mdelay_inner fuel' (u16 (i + 1)) (blocks + 1)
    else Some blocks
  end.

Fixpoint mdelay_outer (fuel : nat) (j time blocks : Z) : option Z :=
  match fuel with
  | O => None
  | S fuel' =>
    if j <? time then
      match mdelay_inner 701 0 blocks with
      | Some blocks' => mdelay_outer fuel' (u16 (j + 1)) time blocks'
      | None => None
      end
    else Some blocks
  end.

Definition mdelay_blocks (time : Z) : option Z :=
  mdelay_outer (Z.to_nat 65536) 1 (u16 time) 0.


(** * Properties *)

(** ** Machine integers *)

Lemma u8_small x : 0 <= x < 256 -> u8 x = x.
Proof. intros H. unfold u8. apply Z.mod_small. lia. Qed.

Lemma u16_small x : 0 <= x < 65536 -> u16 x = x.
Proof. intros H. unfold u16. apply Z.mod_small. lia. Qed.

Lemma u16_range x : 0 <= u16 x < 65536.
Proof. unfold u16. apply Z.mod_pos_bound. lia. Qed.

Lemma u16_le x : 0 <= x -> u16 x <= x.
Proof. intros H. unfold u16. apply Z.mod_le; lia. Qed.

Lemma i16_small x : -32768 <= x <= 32767 -> i16 x = x.
Proof. intros H. unfold i16. rewrite Z.mod_small; lia. Qed.

Lemma constrain_range x : 1 <= constrain x 1 255 <= 255.
Proof.
  unfold constrain.
  destruct (Z.ltb_spec x 1); [lia|].
  destruct (Z.gtb_spec x 255); lia.
Qed.

Lemma constrain_spec x : constrain x 1 255 = Z.max 1 (Z.min x 255).
Proof.
  unfold constrain.
  destruct (Z.ltb_spec x 1); [lia|].
  destruct (Z.gtb_spec x 255); lia.
Qed.

Lemma constrain_mono x y : x <= y -> constrain x 1 255 <= constrain y 1 255.
Proof. intros H. rewrite !constrain_spec. lia. Qed.

Lemma u8_constrain x : u8 (constrain x 1 255) = constrain x 1 255.
Proof. apply u8_small. pose proof (constrain_range x). lia. Qed.

Lemma udiv16_small a b :
  0 <= a < 65536 -> 0 < b < 65536 -> udiv16 a b = Some (a / b).
Proof.
  intros Ha Hb. unfold udiv16. rewrite !u16_small by lia.
  destruct (Z.eqb_spec b 0); [lia | reflexivity].
Qed.

(** ** The scaler *)

(** Preset 1 at half brightness; a ratio so large that [temp * 9] wraps; a
    target brightness of 0; a colour with a channel at 0. *)
Example setBrightness_preset1 :
  setBrightness 128 (mkPWM 255 128) = Some (mkPWM 128 64).
Proof. reflexivity. Qed.

Example setBrightness_wrap :
  setBrightness_raw 128 (mkPWM 255 1) = Some (128, 0) /\
  setBrightness 128 (mkPWM 255 1) = Some (mkPWM 128 1).
Proof. split; reflexivity. Qed.

Example setBrightness_dark :
  setBrightness 0 (mkPWM 3 200) = Some (mkPWM 1 1).
Proof. reflexivity. Qed.

Example setBrightness_off_channel :
  setBrightness 5 (mkPWM 0 5) = None /\ setBrightness 5 (mkPWM 5 0) = None.
Proof. split; reflexivity. Qed.

Lemma ratio100_range d r :
  1 <= r <= d -> d <= 255 -> 100 <= ratio100 d r <= 25500.
Proof.
  intros Hr Hd. unfold ratio100.
  assert (H9 : 0 <= r * 9 / 10 < r).
  { split; [apply Z.div_pos; lia | apply Z.div_lt_upper_bound; lia]. }
  split.
  - apply Z.div_le_lower_bound; nia.
  - apply Z.div_le_upper_bound; nia.
Qed.

Lemma apply100_range b temp :
  0 <= b <= 255 -> 100 <= temp <= 25500 -> 0 <= apply100 b temp <= b.
Proof.
  intros Hb Ht. unfold apply100.
  pose proof (u16_range (temp * 9)) as Hw.
  pose proof (u16_le (temp * 9) ltac:(lia)) as Hl.
  assert (H9 : 0 <= u16 (temp * 9) / 10 < temp).
  { split; [apply Z.div_pos; lia | apply Z.div_lt_upper_bound; lia]. }
  split.
  - apply Z.div_pos; lia.
  - apply Z.lt_succ_r. apply Z.div_lt_upper_bound; nia.
Qed.

(** On colours with both channels in 1..255 no intermediate result of
    [setBrightness] leaves 16 bits, except the product [temp * 9]. *)
Lemma scale_step b d r :
  0 <= b <= 255 -> 1 <= r <= d -> d <= 255 ->
  exists temp,
    udiv16 (u16 (u16 (d * 100) + u16 (r * 9) / 10)) r = Some temp /\
    temp = ratio100 d r /\
    udiv16 (u16 (u16 (b * 100) + u16 (temp * 9) / 10)) temp
      = Some (apply100 b temp).
Proof.
  intros Hb Hr Hd.
  pose proof (ratio100_range d r Hr Hd) as Ht.
  exists (ratio100 d r). split; [|split; [reflexivity|]].
  - assert (H9 : 0 <= r * 9 / 10 < r).
    { split; [apply Z.div_pos; lia | apply Z.div_lt_upper_bound; lia]. }
    rewrite (u16_small (d * 100)) by lia.
    rewrite (u16_small (r * 9)) by lia.
    rewrite (u16_small (d * 100 + r * 9 / 10)) by lia.
    rewrite udiv16_small by lia. reflexivity.
  - set (temp := ratio100 d r) in *.
    pose proof (u16_range (temp * 9)) as Hw.
    assert (H9 : 0 <= u16 (temp * 9) / 10 < 6554).
    { split; [apply Z.div_pos; lia | apply Z.div_lt_upper_bound; lia]. }
    rewrite (u16_small (b * 100)) by lia.
    rewrite (u16_small (b * 100 + u16 (temp * 9) / 10)) by lia.
    rewrite udiv16_small by lia. reflexivity.
Qed.

Lemma setBrightness_raw_cold b white :
  in_u8 b -> valid_color white -> warmWhite white <= coldWhite white ->
  setBrightness_raw b white
  = Some (b, apply100 b (ratio100 (coldWhite white) (warmWhite white))).
Proof.
  intros Hb [Hc Hw] Hd. unfold in_u8, in_duty in *.
  destruct (scale_step b (coldWhite white) (warmWhite white))
    as (temp & H1 & -> & H2); [lia..|].
  unfold setBrightness_raw.
  destruct (Z.geb_spec (coldWhite white) (warmWhite white)); [|lia].
  cbv zeta. rewrite H1, H2. reflexivity.
Qed.

Lemma setBrightness_raw_warm b white :
  in_u8 b -> valid_color white -> coldWhite white < warmWhite white ->
  setBrightness_raw b white
  = Some (apply100 b (ratio100 (warmWhite white) (coldWhite white)), b).
Proof.
  intros Hb [Hc Hw] Hd. unfold in_u8, in_duty in *.
  destruct (scale_step b (warmWhite white) (coldWhite white))
    as (temp & H1 & -> & H2); [lia..|].
  unfold setBrightness_raw.
  destruct (Z.geb_spec (coldWhite white) (warmWhite white)); [lia|].
  cbv zeta. rewrite H1, H2. reflexivity.
Qed.

(** [setBrightness] returns on every valid colour, and what it returns is a
    valid colour again. *)
Lemma setBrightness_valid b white :
  in_u8 b -> valid_color white ->
  exists r, setBrightness b white = Some r /\ valid_color r.
Proof.
  intros Hb Hv. unfold setBrightness.
  destruct (Z.le_gt_cases (warmWhite white) (coldWhite white)) as [Hd|Hd].
  - rewrite setBrightness_raw_cold by assumption.
    eexists; split; [reflexivity|].
    split; cbn; rewrite u8_constrain; apply constrain_range.
  - rewrite setBrightness_raw_warm by assumption.
    eexists; split; [reflexivity|].
    split; cbn; rewrite u8_constrain; apply constrain_range.
Qed.

(** A colour with a channel at 0 makes the first division of
    [setBrightness] a division by zero, whatever the other channel is. *)
Lemma setBrightness_zero_channel b white :
  coldWhite white = 0 \/ warmWhite white = 0 ->
  wf_PWM white -> setBrightness b white = None.
Proof.
  intros H0 [Hc Hw]. unfold in_u8 in Hc, Hw.
  unfold setBrightness, setBrightness_raw.
  destruct (Z.geb_spec (coldWhite white) (warmWhite white)).
  - assert (E : warmWhite white = 0) by lia. rewrite E. reflexivity.
  - assert (E : coldWhite white = 0) by lia. rewrite E. reflexivity.
Qed.

(** C2, as stated, fails: the colour {5, 0} has a channel above 0, and
    scaling it divides by its warm channel, which is 0. *)
Lemma setBrightness_one_channel_off :
  ~ (forall b white,
       in_u8 b -> wf_PWM white ->
       0 < coldWhite white \/ 0 < warmWhite white ->
       exists r, setBrightness b white = Some r).
Proof.
  intros H.
  destruct (H 128 (mkPWM 5 0)) as [r Hr].
  - unfold in_u8. lia.
  - split; unfold in_u8; cbn; lia.
  - left. cbn. lia.
  - discriminate Hr.
Qed.

(** C2, amended: for a target brightness in 0..255 and a colour with both
    channels in 1..255, neither division of [setBrightness] is a division by
    zero: the first divides by the recessive channel, the second by a ratio
    [temp] that is at least 100, and the function returns a colour. *)
Theorem setBrightness_defined b white :
  in_u8 b -> valid_color white ->
  let d := Z.max (coldWhite white) (warmWhite white) in
  let r := Z.min (coldWhite white) (warmWhite white) in
  exists temp q result,
    udiv16 (u16 (u16 (d * 100) + u16 (r * 9) / 10)) r = Some temp /\
    100 <= temp /\
    udiv16 (u16 (u16 (b * 100) + u16 (temp * 9) / 10)) temp = Some q /\
    setBrightness b white = Some result.
Proof.
  intros Hb Hv d r. pose proof Hv as [Hc Hw].
  unfold in_u8, in_duty in Hb, Hc, Hw.
  destruct (scale_step b d r) as (temp & H1 & Ht & H2);
    [lia | subst d r; lia | subst d r; lia |].
  destruct (setBrightness_valid b white Hb Hv) as (result & Hr & _).
  exists temp, (apply100 b temp), result.
  repeat split; try assumption.
  rewrite Ht. apply ratio100_range; subst d r; lia.
Qed.

Lemma setBrightness_defined_witness :
  in_u8 128 /\ valid_color (mkPWM 255 128) /\
  exists temp q result,
    udiv16 (u16 (u16 (255 * 100) + u16 (128 * 9) / 10)) 128 = Some temp /\
    100 <= temp /\
    udiv16 (u16 (u16 (128 * 100) + u16 (temp * 9) / 10)) temp = Some q /\
    setBrightness 128 (mkPWM 255 128) = Some result.
Proof.
  assert (Hb : in_u8 128) by (unfold in_u8; lia).
  assert (Hv : valid_color (mkPWM 255 128))
    by (split; unfold in_duty; cbn; lia).
  exact (conj Hb (conj Hv (setBrightness_defined 128 (mkPWM 255 128) Hb Hv))).
Defined.

(** C1: for a target brightness in 0..255 and a colour with both channels in
    1..255, [setBrightness] returns a colour with both channels in 1..255;
    the channel that dominates the input (cold white on a tie) is assigned
    the target brightness before the clamp, and it is at least the other
    channel in the result. *)
Theorem setBrightness_dominant b white :
  in_u8 b -> valid_color white ->
  exists newCold newWarm r,
    setBrightness_raw b white = Some (newCold, newWarm) /\
    setBrightness b white = Some r /\
    coldWhite r = constrain newCold 1 255 /\
    warmWhite r = constrain newWarm 1 255 /\
    in_duty (coldWhite r) /\ in_duty (warmWhite r) /\
    (warmWhite white <= coldWhite white ->
       newCold = b /\ warmWhite r <= coldWhite r) /\
    (coldWhite white < warmWhite white ->
       newWarm = b /\ coldWhite r <= warmWhite r).
Proof.
  intros Hb Hv. pose proof Hv as [Hc Hw].
  unfold in_u8, in_duty in Hb, Hc, Hw.
  destruct (Z.le_gt_cases (warmWhite white) (coldWhite white)) as [Hd|Hd].
  - pose proof (apply100_range b
      (ratio100 (coldWhite white) (warmWhite white)) Hb
      (ratio100_range (coldWhite white) (warmWhite white)
         ltac:(lia) ltac:(lia))) as Hr.
    eexists _, _, _. unfold setBrightness.
    rewrite setBrightness_raw_cold by assumption.
    split; [reflexivity|]. split; [reflexivity|]. cbn.
    rewrite !u8_constrain.
    repeat split; try reflexivity; try apply constrain_range; try lia.
    apply constrain_mono; lia.
  - pose proof (apply100_range b
      (ratio100 (warmWhite white) (coldWhite white)) Hb
      (ratio100_range (warmWhite white) (coldWhite white)
         ltac:(lia) ltac:(lia))) as Hr.
    eexists _, _, _. unfold setBrightness.
    rewrite setBrightness_raw_warm by assumption.
    split; [reflexivity|]. split; [reflexivity|]. cbn.
    rewrite !u8_constrain.
    repeat split; try reflexivity; try apply constrain_range; try lia.
    apply constrain_mono; lia.
Qed.

Lemma setBrightness_dominant_witness :
  in_u8 128 /\ valid_color (mkPWM 255 128) /\
  exists r,
    setBrightness 128 (mkPWM 255 128) = Some r /\
    in_duty (coldWhite r) /\ in_duty (warmWhite r) /\
    coldWhite r = constrain 128 1 255 /\ warmWhite r <= coldWhite r.
Proof.
  assert (Hb : in_u8 128) by (unfold in_u8; lia).
  assert (Hv : valid_color (mkPWM 255 128))
    by (split; unfold in_duty; cbn; lia).
  split; [exact Hb|]. split; [exact Hv|].
  destruct (setBrightness_dominant 128 (mkPWM 255 128) Hb Hv)
    as (nc & nw & r & _ & Hr & Ec & _ & Dc & Dw & Hcold & _).
  destruct Hcold as [E Hle]; [cbn; lia|].
  subst nc. exists r.
  exact (conj Hr (conj Dc (conj Dw (conj Ec Hle)))).
Defined.

(** ** The scaler is idempotent

    The scaler on 63-bit integers agrees with [setBrightness] on every valid
    input, and it is checked there on all of them. *)

Lemma to_Z_mul_small (x y : int) :
  to_Z x * to_Z y < wB -> to_Z (x * y) = to_Z x * to_Z y.
Proof.
  intros H. rewrite Uint63.mul_spec. apply Z.mod_small.
  pose proof (to_Z_bounded x). pose proof (to_Z_bounded y). nia.
Qed.

Lemma to_Z_add_small (x y : int) :
  to_Z x + to_Z y < wB -> to_Z (x + y) = to_Z x + to_Z y.
Proof.
  intros H. rewrite Uint63.add_spec. apply Z.mod_small.
  pose proof (to_Z_bounded x). pose proof (to_Z_bounded y). lia.
Qed.

Lemma wB_big : 2 ^ 62 < wB.
Proof. reflexivity. Qed.

Lemma to_Z_lit (z : Z) : 0 <= z < 2 ^ 62 -> to_Z (of_Z z) = z.
Proof.
  intros H. rewrite of_Z_spec. apply Z.mod_small.
  pose proof wB_big. lia.
Qed.

Lemma Fast_ratio_spec d r :
  1 <= to_Z r <= to_Z d -> to_Z d <= 255 ->
  to_Z (Fast.ratio d r) = ratio100 (to_Z d) (to_Z r).
Proof.
  intros Hr Hd. unfold Fast.ratio, ratio100. pose proof wB_big.
  rewrite Uint63.div_spec.
  assert (H9 : to_Z (r * 9 / 10) = to_Z r * 9 / 10).
  { rewrite Uint63.div_spec, to_Z_mul_small; change (to_Z 9) with 9;
      change (to_Z 10) with 10; [reflexivity | lia]. }
  assert (0 <= to_Z r * 9 / 10 < to_Z r).
  { split; [apply Z.div_pos; lia | apply Z.div_lt_upper_bound; lia]. }
  assert (H100 : to_Z (d * 100) = to_Z d * 100).
  { rewrite to_Z_mul_small; change (to_Z 100) with 100; [reflexivity | lia]. }
  rewrite to_Z_add_small; rewrite H100, H9; [reflexivity | lia].
Qed.

Lemma Fast_apply_spec b t :
  to_Z b <= 255 -> 100 <= to_Z t <= 25500 ->
  to_Z (Fast.apply b t) = apply100 (to_Z b) (to_Z t).
Proof.
  intros Hb Ht. unfold Fast.apply, apply100, u16. pose proof wB_big.
  pose proof (to_Z_bounded b).
  rewrite Uint63.div_spec.
  assert (H9 : to_Z ((t * 9) mod 65536 / 10) = (to_Z t * 9) mod 65536 / 10).
  { rewrite Uint63.div_spec, Uint63.mod_spec, to_Z_mul_small;
      change (to_Z 9) with 9; change (to_Z 10) with 10;
      change (to_Z 65536) with 65536; [reflexivity | lia]. }
  assert (0 <= (to_Z t * 9) mod 65536 / 10 < 6554).
  { pose proof (Z.mod_pos_bound (to_Z t * 9) 65536 ltac:(lia)).
    split; [apply Z.div_pos; lia | apply Z.div_lt_upper_bound; lia]. }
  assert (H100 : to_Z (b * 100) = to_Z b * 100).
  { rewrite to_Z_mul_small; change (to_Z 100) with 100; [reflexivity | lia]. }
  rewrite to_Z_add_small; rewrite H100, H9; [reflexivity | lia].
Qed.

Lemma Fast_clamp_spec x : to_Z (Fast.clamp x) = constrain (to_Z x) 1 255.
Proof.
  unfold Fast.clamp, constrain.
  destruct (ltbP x 1) as [H|H]; change (to_Z 1) with 1 in H;
    destruct (Z.ltb_spec (to_Z x) 1); try lia; [reflexivity|].
  destruct (ltbP 255 x) as [H'|H']; change (to_Z 255) with 255 in H';
    destruct (Z.gtb_spec (to_Z x) 255); try lia; reflexivity.
Qed.

Lemma Fast_scale_spec b c w :
  in_u8 (to_Z b) -> in_duty (to_Z c) -> in_duty (to_Z w) ->
  setBrightness (to_Z b) (mkPWM (to_Z c) (to_Z w))
  = Some (mkPWM (to_Z (fst (Fast.scale b c w))) (to_Z (snd (Fast.scale b c w)))).
Proof.
  intros Hb Hc Hw. unfold setBrightness, Fast.scale.
  assert (Hv : valid_color (mkPWM (to_Z c) (to_Z w))) by (split; assumption).
  unfold in_u8, in_duty in Hb, Hc, Hw.
  destruct (lebP w c) as [Hd|Hd].
  - rewrite setBrightness_raw_cold by (try assumption; exact Hd).
    cbv [coldWhite warmWhite fst snd].
    rewrite !u8_constrain, !Fast_clamp_spec, Fast_apply_spec, Fast_ratio_spec;
      try lia; [reflexivity|].
    rewrite Fast_ratio_spec by lia. apply ratio100_range; lia.
  - assert (Hd' : to_Z c < to_Z w) by lia.
    rewrite setBrightness_raw_warm by (try assumption; exact Hd').
    cbv [coldWhite warmWhite fst snd].
    rewrite !u8_constrain, !Fast_clamp_spec, Fast_apply_spec, Fast_ratio_spec;
      try lia; [reflexivity|].
    rewrite Fast_ratio_spec by lia. apply ratio100_range; lia.
Qed.

Lemma all_from_spec n : forall i p,
  Fast.all_from n i p = true ->
  to_Z i + Z.of_nat n < wB ->
  forall k, to_Z i <= to_Z k < to_Z i + Z.of_nat n -> p k = true.
Proof.
  induction n as [|n IH]; intros i p Hall Hn k Hk; [lia|].
  cbn [Fast.all_from] in Hall. apply andb_prop in Hall as [Hi Hrest].
  destruct (Z.eq_dec (to_Z k) (to_Z i)) as [E|E].
  - apply to_Z_inj in E. subst k. exact Hi.
  - apply (IH (i + 1)%uint63 p Hrest).
    + rewrite to_Z_add_small; change (to_Z 1) with 1; lia.
    + rewrite to_Z_add_small; change (to_Z 1) with 1; lia.
Qed.

Lemma all_fixed_true :
  Fast.all_from 256 0%uint63 (fun b =>
    Fast.all_from 255 1%uint63 (fun c =>
      Fast.all_from 255 1%uint63 (fun w => Fast.fixed b c w))) = true.
Proof. vm_cast_no_check (eq_refl true). Qed.

Lemma fixed_everywhere b c w :
  in_u8 (to_Z b) -> in_duty (to_Z c) -> in_duty (to_Z w) ->
  Fast.fixed b c w = true.
Proof.
  intros Hb Hc Hw. unfold in_u8, in_duty in *. pose proof wB_big.
  pose proof all_fixed_true as H0.
  pose proof (all_from_spec _ _ _ H0) as H1. cbv beta in H1.
  specialize (H1 ltac:(change (to_Z 0) with 0; lia) b
                 ltac:(change (to_Z 0) with 0; lia)).
  pose proof (all_from_spec _ _ _ H1) as H2. cbv beta in H2.
  specialize (H2 ltac:(change (to_Z 1) with 1; lia) c
                 ltac:(change (to_Z 1) with 1; lia)).
  pose proof (all_from_spec _ _ _ H2) as H3. cbv beta in H3.
  apply H3; change (to_Z 1) with 1; lia.
Qed.

Lemma setBrightness_fixed b white r :
  in_u8 b -> valid_color white ->
  setBrightness b white = Some r -> setBrightness b r = Some r.
Proof.
  intros Hb Hv Hr. pose proof Hv as [Hc Hw].
  unfold in_u8, in_duty in Hb, Hc, Hw.
  destruct white as [c w]; cbn in Hc, Hw.
  assert (Eb : to_Z (of_Z b) = b) by (apply to_Z_lit; lia).
  assert (Ec : to_Z (of_Z c) = c) by (apply to_Z_lit; lia).
  assert (Ew : to_Z (of_Z w) = w) by (apply to_Z_lit; lia).
  pose proof (Fast_scale_spec (of_Z b) (of_Z c) (of_Z w)) as H1.
  rewrite Eb, Ec, Ew in H1. specialize (H1 Hb Hc Hw).
  rewrite Hr in H1. injection H1 as ->.
  destruct (setBrightness_valid b (mkPWM c w) Hb Hv) as (r0 & Hr0 & Hv0).
  rewrite Hr in Hr0. injection Hr0 as <-. destruct Hv0 as [Hc0 Hw0].
  cbn in Hc0, Hw0.
  pose proof (Fast_scale_spec (of_Z b) (fst (Fast.scale (of_Z b) (of_Z c) (of_Z w)))
     (snd (Fast.scale (of_Z b) (of_Z c) (of_Z w)))) as H2.
  rewrite Eb in H2. specialize (H2 Hb Hc0 Hw0). rewrite H2.
  pose proof (fixed_everywhere (of_Z b) (of_Z c) (of_Z w)) as HF.
  rewrite Eb, Ec, Ew in HF. specialize (HF Hb Hc Hw).
  unfold Fast.fixed in HF. cbv zeta in HF.
  apply andb_prop in HF as [F1 F2].
  apply Uint63.eqb_spec in F1, F2. rewrite F1, F2. reflexivity.
Qed.

(** C5: for a brightness in 0..255 and a colour with both channels in
    1..255, scaling twice with the same brightness moves each channel of the
    once-scaled colour by at most 1. *)
Theorem setBrightness_idempotent b x :
  in_u8 b -> valid_color x ->
  exists r r',
    setBrightness b x = Some r /\
    setBrightness b r = Some r' /\
    Z.abs (coldWhite r' - coldWhite r) <= 1 /\
    Z.abs (warmWhite r' - warmWhite r) <= 1.
Proof.
  intros Hb Hv.
  destruct (setBrightness_valid b x Hb Hv) as (r & Hr & _).
  exists r, r. split; [exact Hr|].
  split; [exact (setBrightness_fixed b x r Hb Hv Hr)|].
  split; lia.
Qed.

Lemma setBrightness_idempotent_witness :
  in_u8 200 /\ valid_color (mkPWM 3 2) /\
  exists r r',
    setBrightness 200 (mkPWM 3 2) = Some r /\
    setBrightness 200 r = Some r' /\
    Z.abs (coldWhite r' - coldWhite r) <= 1 /\
    Z.abs (warmWhite r' - warmWhite r) <= 1.
Proof.
  assert (Hb : in_u8 200) by (unfold in_u8; lia).
  assert (Hv : valid_color (mkPWM 3 2)) by (split; unfold in_duty; cbn; lia).
  exact (conj Hb (conj Hv (setBrightness_idempotent 200 (mkPWM 3 2) Hb Hv))).
Defined.

(** ** The fader *)

Example fade_off_ends_off :
  option_map (fun s => (last (pwm_values (trace s)), OCR1A s, OCR1B s))
    (exec (fadePWM (mkPWM 200 100) (mkPWM 0 0) default_durationMs)
          reset_state)
  = Some (Some (mkPWM 0 0), 0, 0).
Proof. reflexivity. Qed.

Lemma same_globals_refl s : same_globals s s.
Proof. repeat split. Qed.

Lemma same_globals_trans s1 s2 s3 :
  same_globals s1 s2 -> same_globals s2 s3 -> same_globals s1 s3.
Proof. unfold same_globals. intuition congruence. Qed.

Lemma pwm_values_app t1 t2 :
  pwm_values (t1 ++ t2) = pwm_values t1 ++ pwm_values t2.
Proof.
  induction t1 as [|e t1 IH]; [reflexivity|].
  destruct e; cbn; rewrite IH; reflexivity.
Qed.

Lemma setPWM_run white s :
  exists s', setPWM white s = Some (tt, s') /\ same_globals s s' /\
    pwm_values (trace s') = pwm_values (trace s) ++ [white] /\
    OCR1A s' = (if coldWhite white =? 1 then 0 else coldWhite white) /\
    OCR1B s' = (if warmWhite white =? 1 then 0 else warmWhite white).
Proof.
  eexists. split; [reflexivity|]. split; [repeat split|].
  cbn. rewrite pwm_values_app. auto.
Qed.

Lemma mdelay_run time s :
  exists s', mdelay time s = Some (tt, s') /\ same_globals s s' /\
    pwm_values (trace s') = pwm_values (trace s).
Proof.
  eexists. split; [reflexivity|]. split; [repeat split|].
  cbn. rewrite pwm_values_app. cbn. apply app_nil_r.
Qed.

Lemma bind_run {A B} (m : M A) (k : A -> M B) s a s' :
  m s = Some (a, s') -> bind m k s = k a s'.
Proof. intros H. unfold bind. rewrite H. reflexivity. Qed.

Lemma fade_loop_run n : forall stepCold stepWarm stepDelay cc cw s,
  exists s', fade_loop n stepCold stepWarm stepDelay cc cw s = Some (tt, s') /\
    same_globals s s' /\
    pwm_values (trace s')
    = pwm_values (trace s) ++ fade_values n stepCold stepWarm cc cw.
Proof.
  induction n as [|n IH]; intros sc sw sd cc cw s.
  - exists s. split; [reflexivity|]. split; [apply same_globals_refl|].
    cbn. symmetry. apply app_nil_r.
  - cbn [fade_loop fade_values].
    destruct (setPWM_run (mkPWM (u8 (constrain cc 1 255))
                                (u8 (constrain cw 1 255))) s)
      as (s1 & E1 & G1 & T1 & _).
    destruct (mdelay_run sd s1) as (s2 & E2 & G2 & T2).
    destruct (IH sc sw sd (i16 (cc + sc)) (i16 (cw + sw)) s2)
      as (s3 & E3 & G3 & T3).
    exists s3. rewrite (bind_run _ _ _ _ _ E1), (bind_run _ _ _ _ _ E2), E3.
    split; [reflexivity|].
    split; [eauto using same_globals_trans|].
    rewrite T3, T2, T1, <- app_assoc. reflexivity.
Qed.

Lemma fadePWM_run start stop durationMs s :
  exists s', fadePWM start stop durationMs s = Some (tt, s') /\
    same_globals s s' /\
    pwm_values (trace s')
    = pwm_values (trace s) ++ fade_steps start stop ++ [stop].
Proof.
  unfold fadePWM. cbv zeta.
  destruct (fade_loop_run (S (Z.to_nat steps))
    (i16 (Z.quot (coldWhite stop - coldWhite start) steps))
    (i16 (Z.quot (warmWhite stop - warmWhite start) steps))
    (i16 (Z.quot durationMs steps)) (coldWhite start) (warmWhite start) s)
    as (s1 & E1 & G1 & T1).
  destruct (setPWM_run stop s1) as (s2 & E2 & G2 & T2 & _).
  exists s2. rewrite (bind_run _ _ _ _ _ E1), E2.
  split; [reflexivity|]. split; [eauto using same_globals_trans|].
  rewrite T2, T1, <- app_assoc. reflexivity.
Qed.

Lemma fade_values_length n : forall sc sw cc cw,
  length (fade_values n sc sw cc cw) = n.
Proof. induction n as [|n IH]; intros; cbn; [|rewrite IH]; reflexivity. Qed.

Lemma fade_values_valid n : forall sc sw cc cw,
  Forall valid_color (fade_values n sc sw cc cw).
Proof.
  induction n as [|n IH]; intros; cbn [fade_values]; constructor; [|apply IH].
  split; cbn; rewrite u8_constrain; apply constrain_range.
Qed.

(** C3: for every start colour, stop colour and duration, [fadePWM] returns
    after handing [setPWM] exactly [steps + 1] = 51 colours whose channels
    all lie in 1..255, followed by one more call with [stop] itself; the
    last colour [setPWM] received is [stop]. *)
Theorem fadePWM_emits start stop durationMs s :
  exists s' vals,
    exec (fadePWM start stop durationMs) s = Some s' /\
    pwm_values (trace s') = pwm_values (trace s) ++ vals ++ [stop] /\
    length vals = Z.to_nat (steps + 1) /\
    Forall valid_color vals /\
    last (pwm_values (trace s')) = Some stop.
Proof.
  destruct (fadePWM_run start stop durationMs s) as (s' & E & _ & T).
  exists s', (fade_steps start stop). unfold exec. rewrite E.
  split; [reflexivity|]. split; [exact T|].
  split; [apply fade_values_length|].
  split; [apply fade_values_valid|].
  rewrite T, !app_assoc. apply last_snoc.
Qed.

Lemma fade_values_cold_lower n : forall sc sw cc cw lo,
  0 <= sc -> -32768 <= cc -> cc + Z.of_nat n * sc <= 32767 ->
  lo <= constrain cc 1 255 ->
  Forall (Z.le lo) (map coldWhite (fade_values n sc sw cc cw)).
Proof.
  induction n as [|n IH]; intros sc sw cc cw lo Hsc Hcc Hn Hlo;
    cbn [fade_values map]; constructor.
  - cbn. rewrite u8_constrain. exact Hlo.
  - assert (E : i16 (cc + sc) = cc + sc) by (apply i16_small; nia).
    rewrite E. apply IH; try nia.
    pose proof (constrain_mono cc (cc + sc)). lia.
Qed.

Lemma fade_values_cold_upper n : forall sc sw cc cw hi,
  0 <= sc -> -32768 <= cc -> cc + Z.of_nat n * sc <= 32767 ->
  1 <= hi -> cc + (Z.of_nat n - 1) * sc <= hi ->
  Forall (fun x => x <= hi) (map coldWhite (fade_values n sc sw cc cw)).
Proof.
  induction n as [|n IH]; intros sc sw cc cw hi Hsc Hcc Hn Hhi Hlast;
    cbn [fade_values map]; constructor.
  - cbn. rewrite u8_constrain, constrain_spec. nia.
  - assert (E : i16 (cc + sc) = cc + sc) by (apply i16_small; nia).
    rewrite E. apply IH; nia.
Qed.

Lemma fade_values_cold_sorted n : forall sc sw cc cw,
  0 <= sc -> -32768 <= cc -> cc + Z.of_nat n * sc <= 32767 ->
  StronglySorted Z.le (map coldWhite (fade_values n sc sw cc cw)).
Proof.
  induction n as [|n IH]; intros sc sw cc cw Hsc Hcc Hn;
    cbn [fade_values map]; constructor.
  - assert (E : i16 (cc + sc) = cc + sc) by (apply i16_small; nia).
    rewrite E. apply IH; nia.
  - cbn [coldWhite]. rewrite u8_constrain.
    assert (E : i16 (cc + sc) = cc + sc) by (apply i16_small; nia).
    rewrite E. apply fade_values_cold_lower; try nia.
    apply constrain_mono. lia.
Qed.

Lemma StronglySorted_snoc (l : list Z) (x : Z) :
  StronglySorted Z.le l -> Forall (fun y => y <= x) l ->
  StronglySorted Z.le (l ++ [x]).
Proof.
  induction 1 as [|a l Hs IH Ha]; intros Hx; cbn.
  - repeat constructor.
  - inversion Hx; subst. constructor; [apply IH; assumption|].
    apply Forall_app. split; [assumption|]. constructor; [assumption|constructor].
Qed.

Lemma quot_steps_range x :
  0 <= x <= 255 -> 0 <= Z.quot x steps /\ Z.quot x steps * steps <= x.
Proof.
  intros H. unfold steps. rewrite Z.quot_div_nonneg by lia.
  split; [apply Z.div_pos; lia|].
  pose proof (Z.mul_div_le x 50). lia.
Qed.

(** C4: when the cold channel of [A] is below the cold channel of [B], the
    cold values [fadePWM A B d] hands to [setPWM] (the 51 clamped values and
    then [B]) never decrease. *)
Theorem fadePWM_cold_monotone A B durationMs s :
  wf_PWM A -> wf_PWM B -> coldWhite A < coldWhite B ->
  exists s' vals,
    exec (fadePWM A B durationMs) s = Some s' /\
    pwm_values (trace s') = pwm_values (trace s) ++ vals /\
    length vals = Z.to_nat (steps + 2) /\
    last vals = Some B /\
    StronglySorted Z.le (map coldWhite vals).
Proof.
  intros [HA _] [HB _] Hlt. unfold in_u8 in HA, HB.
  destruct (fadePWM_run A B durationMs s) as (s' & E & _ & T).
  exists s', (fade_steps A B ++ [B]). unfold exec. rewrite E.
  split; [reflexivity|]. split; [exact T|].
  split; [rewrite length_app; unfold fade_steps;
          rewrite fade_values_length; reflexivity|].
  split; [apply last_snoc|].
  destruct (quot_steps_range (coldWhite B - coldWhite A)) as [Q0 Q1]; [lia|].
  assert (Q2 : Z.quot (coldWhite B - coldWhite A) steps <= 5).
  { unfold steps in *. lia. }
  rewrite map_app. cbn [map]. unfold fade_steps.
  rewrite (i16_small (Z.quot (coldWhite B - coldWhite A) steps)) by lia.
  apply StronglySorted_snoc.
  - apply fade_values_cold_sorted; unfold steps in *; cbn; lia.
  - apply fade_values_cold_upper; unfold steps in *; cbn; lia.
Qed.

Lemma fadePWM_cold_monotone_witness :
  wf_PWM (mkPWM 10 200) /\ wf_PWM (mkPWM 200 10) /\
  coldWhite (mkPWM 10 200) < coldWhite (mkPWM 200 10) /\
  exists s' vals,
    exec (fadePWM (mkPWM 10 200) (mkPWM 200 10) 500) reset_state = Some s' /\
    pwm_values (trace s') = pwm_values (trace reset_state) ++ vals /\
    length vals = Z.to_nat (steps + 2) /\
    last vals = Some (mkPWM 200 10) /\
    StronglySorted Z.le (map coldWhite vals).
Proof.
  assert (HA : wf_PWM (mkPWM 10 200)) by (split; unfold in_u8; cbn; lia).
  assert (HB : wf_PWM (mkPWM 200 10)) by (split; unfold in_u8; cbn; lia).
  assert (Hlt : coldWhite (mkPWM 10 200) < coldWhite (mkPWM 200 10))
    by (cbn; lia).
  exact (conj HA (conj HB (conj Hlt
    (fadePWM_cold_monotone (mkPWM 10 200) (mkPWM 200 10) 500 reset_state
       HA HB Hlt)))).
Defined.

(** ** The command interpreter *)

Example brighter_at_252 :
  option_map brightness
    (exec (processNECCommand 9) (set_brightness 252 reset_state)) = Some 255.
Proof. reflexivity. Qed.

Example colder_at_253_2 :
  option_map whiteColor (exec (processNECCommand 25) cold_state)
  = Some (mkPWM 255 1).
Proof. reflexivity. Qed.

Example cycle_preset_from_reset :
  option_map (fun s => (current_preset s, whiteColor s))
    (exec (processNECCommand 71) reset_state) = Some (1, mkPWM 128 64).
Proof. reflexivity. Qed.

Lemma lift_run {A} (o : option A) a s : o = Some a -> lift o s = Some (a, s).
Proof. intros ->. reflexivity. Qed.

Lemma step_up_spec x : in_u8 x -> step_up x = Z.min (x + 4) 255.
Proof.
  unfold in_u8, step_up, increment. intros H.
  change (u16 (255 - 4)) with 251.
  destruct (Z.ltb_spec x 251); [rewrite u8_small|]; lia.
Qed.

Lemma step_down_spec x : in_u8 x -> step_down x = Z.max (x - 4) 0.
Proof.
  unfold in_u8, step_down, increment. intros H.
  destruct (Z.geb_spec x 4); [rewrite u8_small|]; lia.
Qed.

Lemma at_least_one_spec x : 0 <= x -> at_least_one x = Z.max 1 x.
Proof. unfold at_least_one. intros H. destruct (Z.eqb_spec x 0); lia. Qed.

(** The two brightness steps, as the interpreter runs them. *)
Lemma brighter_run s r :
  in_u8 (brightness s) ->
  setBrightness (Z.min (brightness s + 4) 255) (whiteColor s) = Some r ->
  processNECCommand 9 s
  = Some (tt, stepped (Z.min (brightness s + 4) 255) r s).
Proof.
  intros Hb Hr.
  unfold processNECCommand. cbn [Z.eqb Pos.eqb].
  unfold bind at 1. cbn [get]. unfold bind at 1. cbn [modify].
  rewrite (step_up_spec _ Hb).
  rewrite (bind_run _ _ _ _ _ (lift_run _ _ _ Hr)).
  reflexivity.
Qed.

Lemma darker_run s r :
  in_u8 (brightness s) ->
  setBrightness (Z.max (brightness s - 4) 0) (whiteColor s) = Some r ->
  processNECCommand 7 s
  = Some (tt, stepped (Z.max (brightness s - 4) 0) r s).
Proof.
  intros Hb Hr.
  unfold processNECCommand. cbn [Z.eqb Pos.eqb].
  unfold bind at 1. cbn [get]. unfold bind at 1. cbn [modify].
  rewrite (step_down_spec _ Hb).
  rewrite (bind_run _ _ _ _ _ (lift_run _ _ _ Hr)).
  reflexivity.
Qed.

(** C7: from a brightness [b] in 0..255 the command 9 (brighter) leaves the
    brightness at min (b + 4) 255, in particular at 255 from 252, and the
    command 7 (darker) leaves it at max (b - 4) 0. *)
Theorem brightness_step_saturates s :
  in_u8 (brightness s) -> valid_color (whiteColor s) ->
  (exists s', exec (processNECCommand 9) s = Some s' /\
     brightness s' = Z.min (brightness s + 4) 255 /\
     (brightness s = 252 -> brightness s' = 255)) /\
  (exists s', exec (processNECCommand 7) s = Some s' /\
     brightness s' = Z.max (brightness s - 4) 0).
Proof.
  intros Hb Hv. split.
  - destruct (setBrightness_valid (Z.min (brightness s + 4) 255)
                (whiteColor s)) as (r & Hr & _);
      [unfold in_u8 in *; lia | exact Hv |].
    eexists. unfold exec. rewrite (brighter_run s r Hb Hr).
    split; [reflexivity|]. cbn. split; [reflexivity | lia].
  - destruct (setBrightness_valid (Z.max (brightness s - 4) 0)
                (whiteColor s)) as (r & Hr & _);
      [unfold in_u8 in *; lia | exact Hv |].
    eexists. unfold exec. rewrite (darker_run s r Hb Hr).
    split; reflexivity.
Qed.

Lemma brightness_step_saturates_witness :
  in_u8 (brightness reset_state) /\ valid_color (whiteColor reset_state) /\
  (exists s', exec (processNECCommand 9) reset_state = Some s' /\
     brightness s' = Z.min (brightness reset_state + 4) 255 /\
     (brightness reset_state = 252 -> brightness s' = 255)) /\
  (exists s', exec (processNECCommand 7) reset_state = Some s' /\
     brightness s' = Z.max (brightness reset_state - 4) 0).
Proof.
  assert (Hb : in_u8 (brightness reset_state)) by (unfold in_u8; cbn; lia).
  assert (Hv : valid_color (whiteColor reset_state))
    by (split; unfold in_duty; cbn; lia).
  exact (conj Hb (conj Hv (brightness_step_saturates reset_state Hb Hv))).
Defined.

(** C8: the command 25 (colder white) sets the cold channel to
    min (cold + 4) 255 and the warm channel to max (warm - 4) 0, each raised
    to at least 1, sets the brightness to the larger of the two new
    channels and hands the new colour to [setPWM]; from {253, 2} the colour
    becomes {255, 1}. *)
Theorem shift_colder_saturates s :
  wf_PWM (whiteColor s) ->
  exists s',
    exec (processNECCommand 25) s = Some s' /\
    coldWhite (whiteColor s')
      = Z.max 1 (Z.min (coldWhite (whiteColor s) + 4) 255) /\
    warmWhite (whiteColor s')
      = Z.max 1 (Z.max (warmWhite (whiteColor s) - 4) 0) /\
    brightness s'
      = Z.max (coldWhite (whiteColor s')) (warmWhite (whiteColor s')) /\
    last (pwm_values (trace s')) = Some (whiteColor s') /\
    (whiteColor s = mkPWM 253 2 -> whiteColor s' = mkPWM 255 1).
Proof.
  intros [Hc Hw].
  eexists. split; [reflexivity|]. cbn.
  rewrite (step_up_spec _ Hc), (step_down_spec _ Hw).
  unfold in_u8 in *. rewrite !at_least_one_spec by lia.
  split; [reflexivity|]. split; [reflexivity|].
  split; [destruct (Z.gtb_spec (Z.max 1 (Z.min (coldWhite (whiteColor s) + 4) 255))
                     (Z.max 1 (Z.max (warmWhite (whiteColor s) - 4) 0))); lia|].
  split; [rewrite pwm_values_app; apply last_snoc|].
  intros ->. reflexivity.
Qed.

Lemma shift_colder_saturates_witness :
  wf_PWM (whiteColor cold_state) /\
  exists s',
    exec (processNECCommand 25) cold_state = Some s' /\
    whiteColor s' = mkPWM 255 1 /\ brightness s' = 255.
Proof.
  assert (Hw : wf_PWM (whiteColor cold_state))
    by (split; unfold in_u8; cbn; lia).
  split; [exact Hw|].
  destruct (shift_colder_saturates cold_state Hw)
    as (s' & E & _ & _ & B & _ & W).
  specialize (W eq_refl). exists s'.
  rewrite W in B. exact (conj E (conj W B)).
Defined.

(** C9: a command code outside the [case] labels of [processNECCommand]
    changes nothing: the globals, the compare registers, the EEPROM and the
    trace of events are those of the state before. *)
Theorem unrecognized_command_noop command s :
  ~ In command recognized ->
  processNECCommand command s = Some (tt, s).
Proof.
  intros H. unfold recognized in H. cbn [In] in H.
  unfold processNECCommand.
  repeat match goal with
  | |- context [?c =? ?k] =>
      destruct (Z.eqb_spec c k); [exfalso; apply H; subst; tauto|]
  end.
  reflexivity.
Qed.

Lemma unrecognized_command_noop_witness :
  ~ In 70 recognized /\ processNECCommand 70 reset_state = Some (tt, reset_state).
Proof.
  assert (H : ~ In 70 recognized) by (cbn; lia).
  exact (conj H (unrecognized_command_noop 70 reset_state H)).
Defined.

Lemma night_dim : setBrightness 5 (preset 4) = Some (mkPWM 1 5).
Proof. reflexivity. Qed.

Lemma readColor_run s :
  readColor s
  = Some (mkPWM (default 255 (EEPROM s !! EEPROM_COLD_WHITE_ADDR))
                (default 255 (EEPROM s !! EEPROM_WARM_WHITE_ADDR)), s).
Proof. reflexivity. Qed.

Lemma getBrightness_current color s :
  whiteColor s = color ->
  getBrightness color s = Some (Z.max (coldWhite color) (warmWhite color), s).
Proof.
  intros <-. unfold getBrightness, bind, get, ret.
  destruct (Z.gtb_spec (coldWhite (whiteColor s)) (warmWhite (whiteColor s)));
    do 2 f_equal; lia.
Qed.

(** C6: command 8 received in night mode leaves night mode, sets
    [whiteColor] to the colour held in the two EEPROM cells (the one
    [readColor] returns) and [brightness] to the larger of that colour's two
    channels, whatever [whiteColor] and [brightness] were before;
    [getBrightness] reads the global [whiteColor] only after it holds the
    loaded colour. *)
Theorem leave_night_restores s :
  is_night s = true ->
  exists s',
    readColor s = Some (persisted s, s) /\
    exec (processNECCommand 8) s = Some s' /\
    whiteColor s' = persisted s /\
    coldWhite (whiteColor s')
      = default 255 (EEPROM s !! EEPROM_COLD_WHITE_ADDR) /\
    warmWhite (whiteColor s')
      = default 255 (EEPROM s !! EEPROM_WARM_WHITE_ADDR) /\
    brightness s'
      = Z.max (coldWhite (persisted s)) (warmWhite (persisted s)) /\
    is_night s' = false /\
    EEPROM s' = EEPROM s /\
    last (pwm_values (trace s')) = Some (persisted s).
Proof.
  intros Hn.
  set (loaded := persisted s).
  set (s1 := set_whiteColor loaded (set_is_night false s)).
  set (s2 := set_brightness (Z.max (coldWhite loaded) (warmWhite loaded)) s1).
  destruct (fadePWM_run (mkPWM 1 5) loaded default_durationMs s2)
    as (s' & E & G & T).
  destruct G as (Gw & Gb & _ & _ & Gn & Ge).
  exists s'.
  split; [apply readColor_run|].
  split; [|split; [exact Gw | split; [rewrite Gw; reflexivity |
           split; [rewrite Gw; reflexivity | split; [exact Gb |
           split; [exact Gn | split; [exact Ge|]]]]]]].
  - unfold exec, processNECCommand. cbn [Z.eqb Pos.eqb].
    unfold bind at 1. cbn [get]. unfold bind at 1. cbn [modify].
    rewrite Hn. cbn [negb].
    rewrite (bind_run _ _ _ _ _ (readColor_run _)).
    unfold bind at 1. cbn [modify].
    rewrite (bind_run _ _ _ _ _
               (getBrightness_current loaded s1 eq_refl)).
    unfold bind at 1. cbn [modify].
    rewrite (bind_run _ _ _ _ _ (lift_run _ _ _ night_dim)).
    change (exec (fadePWM (mkPWM 1 5) loaded default_durationMs) s2 = Some s').
    unfold exec. rewrite E. reflexivity.
  - rewrite T, !app_assoc. apply last_snoc.
Qed.

Lemma leave_night_restores_witness :
  is_night night_state = true /\
  exists s',
    exec (processNECCommand 8) night_state = Some s' /\
    whiteColor s' = mkPWM 200 100 /\
    brightness s' = 200 /\
    is_night s' = false /\
    last (pwm_values (trace s')) = Some (mkPWM 200 100).
Proof.
  split; [reflexivity|].
  destruct (leave_night_restores night_state eq_refl)
    as (s' & _ & E & W & _ & _ & B & N & _ & L).
  exists s'. exact (conj E (conj W (conj B (conj N L)))).
Defined.

Lemma fixed_level_run level s newColor :
  setBrightness level (whiteColor s) = Some newColor ->
  exists s',
    (s0 <- get ;;
     newColor <- lift (setBrightness level (whiteColor s0)) ;;
     fadePWM (whiteColor s0) newColor default_durationMs ;;;
     modify (set_whiteColor newColor)) s = Some (tt, s') /\
    whiteColor s' = newColor /\ brightness s' = brightness s /\
    current_preset s' = current_preset s /\ is_on s' = is_on s /\
    is_night s' = is_night s /\ EEPROM s' = EEPROM s.
Proof.
  intros Hr.
  destruct (fadePWM_run (whiteColor s) newColor default_durationMs s)
    as (s1 & E & G & _).
  destruct G as (_ & Gb & Gp & Go & Gn & Ge).
  exists (set_whiteColor newColor s1).
  split; [|repeat split; assumption].
  unfold bind at 1. cbn [get].
  rewrite (bind_run _ _ _ _ _ (lift_run _ _ _ Hr)).
  rewrite (bind_run _ _ _ _ _ E). reflexivity.
Qed.

(** C10: the commands 12, 24 and 94 set [whiteColor] to the current
    colour scaled to 25, 128 and 255 and leave [brightness],
    [current_preset], [is_on] and [is_night] as they were, so that a
    following brighter or darker command steps from the old brightness. *)
Theorem fixed_level_keeps_brightness s command level :
  in_u8 (brightness s) -> valid_color (whiteColor s) ->
  In (command, level) fixed_levels ->
  exists s' newColor,
    setBrightness level (whiteColor s) = Some newColor /\
    exec (processNECCommand command) s = Some s' /\
    whiteColor s' = newColor /\
    brightness s' = brightness s /\
    current_preset s' = current_preset s /\
    is_on s' = is_on s /\ is_night s' = is_night s /\
    (exists s'', exec (processNECCommand 9) s' = Some s'' /\
       brightness s'' = Z.min (brightness s + 4) 255) /\
    (exists s'', exec (processNECCommand 7) s' = Some s'' /\
       brightness s'' = Z.max (brightness s - 4) 0).
Proof.
  intros Hb Hv Hin.
  assert (Hl : in_u8 level).
  { unfold fixed_levels in Hin. cbn [In] in Hin. unfold in_u8.
    destruct Hin as [[= <- <-]|[[= <- <-]|[[= <- <-]|[]]]]; lia. }
  destruct (setBrightness_valid level (whiteColor s) Hl Hv) as (r & Hr & Hvr).
  destruct (fixed_level_run level s r Hr)
    as (s' & E & Gw & Gb & Gp & Go & Gn & _).
  assert (Hb' : in_u8 (brightness s')) by (rewrite Gb; exact Hb).
  assert (Hv' : valid_color (whiteColor s')) by (rewrite Gw; exact Hvr).
  exists s', r.
  split; [exact Hr|]. split.
  { unfold fixed_levels in Hin. cbn [In] in Hin.
    destruct Hin as [[= <- <-]|[[= <- <-]|[[= <- <-]|[]]]];
      unfold exec, processNECCommand; cbn [Z.eqb Pos.eqb];
      rewrite E; reflexivity. }
  repeat (split; [assumption|]).
  rewrite <- Gb. split.
  - destruct (setBrightness_valid (Z.min (brightness s' + 4) 255)
                (whiteColor s')) as (r' & Hr' & _);
      [unfold in_u8 in *; lia | exact Hv' |].
    eexists. unfold exec. rewrite (brighter_run s' r' Hb' Hr').
    split; reflexivity.
  - destruct (setBrightness_valid (Z.max (brightness s' - 4) 0)
                (whiteColor s')) as (r' & Hr' & _);
      [unfold in_u8 in *; lia | exact Hv' |].
    eexists. unfold exec. rewrite (darker_run s' r' Hb' Hr').
    split; reflexivity.
Qed.

Lemma fixed_level_keeps_brightness_witness :
  in_u8 (brightness reset_state) /\ valid_color (whiteColor reset_state) /\
  In (12, 25) fixed_levels /\
  exists s' newColor,
    setBrightness 25 (whiteColor reset_state) = Some newColor /\
    exec (processNECCommand 12) reset_state = Some s' /\
    whiteColor s' = newColor /\
    brightness s' = brightness reset_state /\
    current_preset s' = current_preset reset_state /\
    is_on s' = is_on reset_state /\ is_night s' = is_night reset_state /\
    (exists s'', exec (processNECCommand 9) s' = Some s'' /\
       brightness s'' = Z.min (brightness reset_state + 4) 255) /\
    (exists s'', exec (processNECCommand 7) s' = Some s'' /\
       brightness s'' = Z.max (brightness reset_state - 4) 0).
Proof.
  assert (Hb : in_u8 (brightness reset_state)) by (unfold in_u8; cbn; lia).
  assert (Hv : valid_color (whiteColor reset_state))
    by (split; unfold in_duty; cbn; lia).
  assert (Hin : In (12, 25) fixed_levels) by (left; reflexivity).
  exact (conj Hb (conj Hv (conj Hin
    (fixed_level_keeps_brightness reset_state 12 25 Hb Hv Hin)))).
Defined.

(** ** The invariant of the interpreter

    From a state with valid colours every command returns (no division by
    zero) and leaves a state with valid colours, so the hypotheses of the
    theorems above hold along every run that starts from a valid EEPROM
    content. *)

Lemma inv_same_globals s s' : same_globals s s' -> inv s -> inv s'.
Proof.
  intros (Gw & Gb & Gp & _ & _ & Ge) (Hw & Hb & Hp & He).
  unfold inv, persisted. rewrite Gw, Gb, Gp, Ge. auto.
Qed.

Lemma preset_valid p : 0 <= p < 5 -> valid_color (preset p).
Proof.
  intros H.
  assert (E : p = 0 \/ p = 1 \/ p = 2 \/ p = 3 \/ p = 4) by lia.
  destruct E as [->|[->|[->|[->| ->]]]]; split; cbv; split; discriminate.
Qed.

Lemma next_preset_range p : 0 <= p < 5 -> 0 <= u8 (Z.rem (p + 1) 5) < 5.
Proof.
  intros H. pose proof (Z.rem_bound_pos (p + 1) 5 ltac:(lia) ltac:(lia)).
  rewrite u8_small; lia.
Qed.

Lemma persisted_update c w (rom : list Z) :
  in_duty c -> in_duty w ->
  valid_color (mkPWM (default 255 (rom !! 0%nat)) (default 255 (rom !! 1%nat))) ->
  valid_color
    (mkPWM (default 255 (<[1%nat := w]> (<[0%nat := c]> rom) !! 0%nat))
           (default 255 (<[1%nat := w]> (<[0%nat := c]> rom) !! 1%nat))).
Proof.
  intros Hc Hw [Hv1 Hv2].
  destruct rom as [|a [|b rom]]; cbn in *; split; cbn; assumption.
Qed.

Lemma shifted_valid x y :
  in_duty x -> in_duty y ->
  valid_color (mkPWM (at_least_one (step_up x)) (at_least_one (step_down y))) /\
  valid_color (mkPWM (at_least_one (step_down x)) (at_least_one (step_up y))) /\
  in_u8 (if at_least_one (step_up x) >? at_least_one (step_down y)
         then at_least_one (step_up x) else at_least_one (step_down y)) /\
  in_u8 (if at_least_one (step_down x) >? at_least_one (step_up y)
         then at_least_one (step_down x) else at_least_one (step_up y)).
Proof.
  unfold in_duty. intros Hx Hy.
  rewrite !step_up_spec, !step_down_spec by (unfold in_u8; lia).
  rewrite !at_least_one_spec by lia.
  repeat split; cbn;
    repeat match goal with |- context [?a >? ?b] =>
      destruct (Z.gtb_spec a b) end; lia.
Qed.

Lemma processNECCommand_inv command s :
  inv s -> exists s', exec (processNECCommand command) s = Some s' /\ inv s'.
Proof.
  intros Hi. pose proof Hi as (Hw & Hb & Hp & He).
  pose proof Hw as [Hwc Hww].
  destruct (shifted_valid _ _ Hwc Hww) as (Vc & Vw & Bc & Bw).
  unfold exec, processNECCommand.
  destruct (Z.eqb_spec command 69).
  { unfold bind at 1. cbn [get]. unfold bind at 1. cbn [modify].
    destruct (is_on s); cbn [negb].
    - destruct (fadePWM_run (whiteColor s) (mkPWM 0 0) default_durationMs
                  (set_is_on false s)) as (s' & E & G & _).
      exists s'. rewrite E. split; [reflexivity|].
      apply (inv_same_globals _ _ G). exact Hi.
    - destruct (fadePWM_run (mkPWM 0 0) (whiteColor s) default_durationMs
                  (set_is_on true s)) as (s' & E & G & _).
      exists s'. rewrite E. split; [reflexivity|].
      apply (inv_same_globals _ _ G). exact Hi. }
  destruct (Z.eqb_spec command 71).
  { unfold bind at 1. cbn [get]. unfold bind at 1. cbn [modify].
    pose proof (next_preset_range _ Hp) as Hp'.
    destruct (setBrightness_valid (brightness s)
                (preset (u8 (Z.rem (current_preset s + 1) 5))) Hb
                (preset_valid _ Hp')) as (r & Hr & Hv).
    rewrite (bind_run _ _ _ _ _ (lift_run _ _ _ Hr)).
    destruct (fadePWM_run (whiteColor s) r default_durationMs
      (set_current_preset (u8 (Z.rem (current_preset s + 1) 5)) s))
      as (s' & E & G & _).
    rewrite (bind_run _ _ _ _ _ E).
    eexists. split; [reflexivity|].
    destruct G as (_ & Gb & Gp & _ & _ & Ge).
    unfold inv, persisted. cbn. rewrite Gb, Gp, Ge. cbn. auto. }
  destruct (Z.eqb_spec command 9).
  { destruct (setBrightness_valid (Z.min (brightness s + 4) 255)
                (whiteColor s)) as (r & Hr & Hv);
      [unfold in_u8 in *; lia | exact Hw |].
    pose proof (brighter_run s r Hb Hr) as E.
    unfold processNECCommand in E. cbn [Z.eqb Pos.eqb] in E. rewrite E.
    eexists. split; [reflexivity|].
    split; [exact Hv|]. split; [unfold in_u8 in *; cbn; lia|].
    split; [exact Hp | exact He]. }
  destruct (Z.eqb_spec command 7).
  { destruct (setBrightness_valid (Z.max (brightness s - 4) 0)
                (whiteColor s)) as (r & Hr & Hv);
      [unfold in_u8 in *; lia | exact Hw |].
    pose proof (darker_run s r Hb Hr) as E.
    unfold processNECCommand in E. cbn [Z.eqb Pos.eqb] in E. rewrite E.
    eexists. split; [reflexivity|].
    split; [exact Hv|]. split; [unfold in_u8 in *; cbn; lia|].
    split; [exact Hp | exact He]. }
  destruct (Z.eqb_spec command 25).
  { eexists. split; [reflexivity|].
    unfold inv, persisted. cbn. auto. }
  destruct (Z.eqb_spec command 64).
  { eexists. split; [reflexivity|].
    unfold inv, persisted. cbn. auto. }
  destruct (Z.eqb_spec command 8).
  { unfold bind at 1. cbn [get]. unfold bind at 1. cbn [modify].
    destruct (is_night s); cbn [negb].
    - rewrite (bind_run _ _ _ _ _ (readColor_run _)).
      unfold bind at 1. cbn [modify].
      rewrite (bind_run _ _ _ _ _
                 (getBrightness_current (persisted s)
                    (set_whiteColor (persisted s) (set_is_night false s))
                    eq_refl)).
      unfold bind at 1. cbn [modify].
      rewrite (bind_run _ _ _ _ _ (lift_run _ _ _ night_dim)).
      match goal with |- context [fadePWM ?a ?b ?d ?s0] =>
        destruct (fadePWM_run a b d s0) as (s' & E & G & _) end.
      rewrite E. exists s'. split; [reflexivity|].
      apply (inv_same_globals _ _ G).
      destruct He as [Hec Hew]. unfold in_duty in Hec, Hew.
      unfold inv, persisted. cbn. unfold in_u8.
      repeat split; auto; cbn in *; lia.
    - rewrite (bind_run _ _ _ _ _ (lift_run _ _ _ night_dim)).
      match goal with |- context [fadePWM ?a ?b ?d ?s0] =>
        destruct (fadePWM_run a b d s0) as (s' & E & G & _) end.
      rewrite E. exists s'. split; [reflexivity|].
      apply (inv_same_globals _ _ G). exact Hi. }
  assert (Hlevel : forall level, in_u8 level ->
    exists s',
      match
        (s0 <- get ;;
         newColor <- lift (setBrightness level (whiteColor s0)) ;;
         fadePWM (whiteColor s0) newColor default_durationMs ;;;
         modify (set_whiteColor newColor)) s
      with Some (_, s') => Some s' | None => None end = Some s' /\ inv s').
  { intros level Hl.
    destruct (setBrightness_valid level (whiteColor s) Hl Hw) as (r & Hr & Hv).
    destruct (fixed_level_run level s r Hr)
      as (s' & E & Gw & Gb & Gp & _ & _ & Ge).
    exists s'. rewrite E. split; [reflexivity|].
    unfold inv, persisted. rewrite Gw, Gb, Gp, Ge. auto. }
  destruct (Z.eqb_spec command 12); [apply Hlevel; unfold in_u8; lia|].
  destruct (Z.eqb_spec command 24); [apply Hlevel; unfold in_u8; lia|].
  destruct (Z.eqb_spec command 94); [apply Hlevel; unfold in_u8; lia|].
  destruct (Z.eqb_spec command 28).
  { eexists. split; [reflexivity|].
    unfold inv, persisted. cbn -[insert lookup].
    repeat split; try apply Hw; try apply Hb; try apply Hp;
      apply (persisted_update _ _ _ Hwc Hww He). }
  exists s. split; [reflexivity | exact Hi].
Qed.

(** [setup] establishes the invariant when the stored colour is valid, as
    it is on an erased EEPROM and after every store command. *)
Lemma setup_inv s :
  valid_color (persisted s) -> 0 <= current_preset s < 5 ->
  exists s', exec setup s = Some s' /\ inv s' /\ whiteColor s' = persisted s.
Proof.
  intros He Hp. unfold exec, setup.
  rewrite (bind_run _ _ _ _ _ (readColor_run _)).
  unfold bind at 1. cbn [modify].
  rewrite (bind_run _ _ _ _ _
             (getBrightness_current (persisted s)
                (set_whiteColor (persisted s) s) eq_refl)).
  unfold bind at 1. cbn [modify].
  match goal with |- context [fadePWM ?a ?b ?d ?s0] =>
    destruct (fadePWM_run a b d s0) as (s' & E & G & _) end.
  rewrite E. exists s'. split; [reflexivity|].
  destruct G as (Gw & Gb & Gp & _ & _ & Ge).
  destruct He as [Hec Hew]. unfold in_duty in Hec, Hew.
  unfold inv, persisted. rewrite Gw, Gb, Gp, Ge. cbn.
  unfold in_u8, in_duty, valid_color. cbn in *. repeat split; auto; lia.
Qed.

(** * Further properties *)

(** ** The scaler: equal channels, monotonicity, failure, accuracy *)

Lemma ratio100_equal x : 1 <= x <= 255 -> ratio100 x x = 100.
Proof.
  intros H. unfold ratio100.
  assert (H9 : 0 <= x * 9 / 10 < x).
  { split; [apply Z.div_pos; lia | apply Z.div_lt_upper_bound; lia]. }
  symmetry. apply (Z.div_unique _ _ _ (x * 9 / 10)); lia.
Qed.

Lemma apply100_unit b : 0 <= b -> apply100 b 100 = b.
Proof.
  intros H. unfold apply100. change (u16 (100 * 9) / 10) with 90.
  symmetry. apply (Z.div_unique _ _ _ 90); lia.
Qed.

(** X1: a colour with two equal channels in 1..255 is scaled to the colour
    whose two channels are the target brightness, raised to at least 1. *)
Theorem setBrightness_equal_channels b x :
  in_u8 b -> in_duty x ->
  setBrightness b (mkPWM x x)
  = Some (mkPWM (constrain b 1 255) (constrain b 1 255)).
Proof.
  intros Hb Hx. unfold setBrightness.
  rewrite setBrightness_raw_cold; [|exact Hb|split; exact Hx|cbn; lia].
  cbn [coldWhite warmWhite]. unfold in_u8, in_duty in *.
  rewrite ratio100_equal, apply100_unit, !u8_constrain by lia.
  reflexivity.
Qed.

Lemma setBrightness_equal_channels_witness :
  in_u8 200 /\ in_duty 77 /\
  setBrightness 200 (mkPWM 77 77)
  = Some (mkPWM (constrain 200 1 255) (constrain 200 1 255)).
Proof.
  assert (Hb : in_u8 200) by (unfold in_u8; lia).
  assert (Hx : in_duty 77) by (unfold in_duty; lia).
  exact (conj Hb (conj Hx (setBrightness_equal_channels 200 77 Hb Hx))).
Defined.

Lemma apply100_mono b b' temp :
  0 < temp -> b <= b' -> apply100 b temp <= apply100 b' temp.
Proof.
  intros Ht Hb. unfold apply100. apply Z.div_le_mono; lia.
Qed.

Lemma setBrightness_closed b white :
  in_u8 b -> valid_color white ->
  setBrightness b white
  = Some (if coldWhite white >=? warmWhite white
          then mkPWM (constrain b 1 255)
                 (constrain (apply100 b (ratio100 (coldWhite white)
                                                  (warmWhite white))) 1 255)
          else mkPWM (constrain (apply100 b (ratio100 (warmWhite white)
                                                      (coldWhite white))) 1 255)
                 (constrain b 1 255)).
Proof.
  intros Hb Hv. unfold setBrightness.
  destruct (Z.geb_spec (coldWhite white) (warmWhite white)).
  - rewrite setBrightness_raw_cold by (try assumption; lia).
    rewrite !u8_constrain. reflexivity.
  - rewrite setBrightness_raw_warm by (try assumption; lia).
    rewrite !u8_constrain. reflexivity.
Qed.

(** X2: on a colour with both channels in 1..255 a larger target
    brightness never gives a smaller channel. *)
Theorem setBrightness_monotone b b' white :
  in_u8 b -> in_u8 b' -> valid_color white -> b <= b' ->
  exists r r',
    setBrightness b white = Some r /\ setBrightness b' white = Some r' /\
    coldWhite r <= coldWhite r' /\ warmWhite r <= warmWhite r'.
Proof.
  intros Hb Hb' Hv Hle. pose proof Hv as [Hc Hw].
  unfold in_duty in Hc, Hw.
  rewrite !setBrightness_closed by assumption.
  eexists _, _. split; [reflexivity|]. split; [reflexivity|].
  destruct (Z.geb_spec (coldWhite white) (warmWhite white)); cbn;
    split; apply constrain_mono; try assumption; apply apply100_mono;
    try assumption;
    match goal with |- 0 < ratio100 ?d ?r =>
      pose proof (ratio100_range d r ltac:(lia) ltac:(lia)); lia end.
Qed.

Lemma setBrightness_monotone_witness :
  in_u8 100 /\ in_u8 200 /\ valid_color (mkPWM 255 128) /\ 100 <= 200 /\
  exists r r',
    setBrightness 100 (mkPWM 255 128) = Some r /\
    setBrightness 200 (mkPWM 255 128) = Some r' /\
    coldWhite r <= coldWhite r' /\ warmWhite r <= warmWhite r'.
Proof.
  assert (Hb : in_u8 100) by (unfold in_u8; lia).
  assert (Hb' : in_u8 200) by (unfold in_u8; lia).
  assert (Hv : valid_color (mkPWM 255 128))
    by (split; unfold in_duty; cbn; lia).
  assert (Hle : 100 <= 200) by lia.
  exact (conj Hb (conj Hb' (conj Hv (conj Hle
    (setBrightness_monotone 100 200 (mkPWM 255 128) Hb Hb' Hv Hle))))).
Defined.

(** X3: for byte-valued arguments [setBrightness] fails, by a division by
    zero, exactly on the colours that have a channel at 0. *)
Theorem setBrightness_None_iff b white :
  in_u8 b -> wf_PWM white ->
  setBrightness b white = None <->
  coldWhite white = 0 \/ warmWhite white = 0.
Proof.
  intros Hb Hwf. split.
  - intros HN. destruct Hwf as [Hc Hw]. unfold in_u8 in Hc, Hw.
    destruct (Z.eq_dec (coldWhite white) 0) as [|Nc]; [tauto|].
    destruct (Z.eq_dec (warmWhite white) 0) as [|Nw]; [tauto|].
    destruct (setBrightness_valid b white Hb) as (r & Hr & _).
    + split; unfold in_duty; lia.
    + congruence.
  - intros H0. apply setBrightness_zero_channel; assumption.
Qed.

Lemma setBrightness_None_iff_witness :
  in_u8 5 /\ wf_PWM (mkPWM 0 5) /\
  (setBrightness 5 (mkPWM 0 5) = None <->
   coldWhite (mkPWM 0 5) = 0 \/ warmWhite (mkPWM 0 5) = 0).
Proof.
  assert (Hb : in_u8 5) by (unfold in_u8; lia).
  assert (Hw : wf_PWM (mkPWM 0 5)) by (split; unfold in_u8; cbn; lia).
  exact (conj Hb (conj Hw (setBrightness_None_iff 5 (mkPWM 0 5) Hb Hw))).
Defined.

Lemma accurate63_spec b d r :
  to_Z b <= 255 -> 1 <= to_Z r <= to_Z d -> to_Z d <= 255 ->
  accurate63 b d r = true ->
  let x := apply100 (to_Z b) (ratio100 (to_Z d) (to_Z r)) in
  to_Z b * to_Z r < x * to_Z d + 3 * to_Z d /\
  x * to_Z d < to_Z b * to_Z r + 2 * to_Z d.
Proof.
  intros Hb Hr Hd Hacc x. pose proof wB_big.
  pose proof (to_Z_bounded b).
  pose proof (ratio100_range (to_Z d) (to_Z r) Hr Hd) as Ht.
  pose proof (apply100_range (to_Z b) _ ltac:(lia) Ht) as Hx. fold x in Hx.
  unfold accurate63 in Hacc. cbv zeta in Hacc.
  assert (Ex : to_Z (Fast.apply b (Fast.ratio d r)) = x).
  { unfold x. rewrite Fast_apply_spec, Fast_ratio_spec; try lia.
    rewrite Fast_ratio_spec by lia. exact Ht. }
  apply andb_prop in Hacc as [H1 H2].
  apply Uint63.ltb_spec in H1, H2.
  assert (E3 : to_Z (3 * d) = 3 * to_Z d).
  { rewrite to_Z_mul_small; change (to_Z 3) with 3; lia. }
  assert (E2 : to_Z (2 * d) = 2 * to_Z d).
  { rewrite to_Z_mul_small; change (to_Z 2) with 2; lia. }
  assert (Ebr : to_Z (b * r) = to_Z b * to_Z r).
  { rewrite to_Z_mul_small; nia. }
  assert (Exd : to_Z (Fast.apply b (Fast.ratio d r) * d) = x * to_Z d).
  { rewrite to_Z_mul_small; rewrite Ex; nia. }
  rewrite to_Z_add_small in H1, H2; rewrite ?Ebr, ?Exd, ?E3, ?E2 in *; try nia.
Qed.

Lemma all_accurate_true :
  Fast.all_from 256 0%uint63 (fun b =>
    Fast.all_from 255 1%uint63 (fun d =>
      Fast.all_from 255 1%uint63 (fun r =>
        if (r <=? d)%uint63 then accurate63 b d r else true))) = true.
Proof. vm_cast_no_check (eq_refl true). Qed.

Lemma apply100_accurate b d r :
  in_u8 b -> 1 <= r <= d -> d <= 255 ->
  let x := apply100 b (ratio100 d r) in
  b * r - 3 * d < x * d < b * r + 2 * d.
Proof.
  intros Hb Hr Hd. unfold in_u8 in Hb. pose proof wB_big.
  assert (Eb : to_Z (of_Z b) = b) by (apply to_Z_lit; lia).
  assert (Ed : to_Z (of_Z d) = d) by (apply to_Z_lit; lia).
  assert (Er : to_Z (of_Z r) = r) by (apply to_Z_lit; lia).
  pose proof all_accurate_true as H0.
  pose proof (all_from_spec _ _ _ H0) as H1. cbv beta in H1.
  specialize (H1 ltac:(change (to_Z 0) with 0; lia) (of_Z b)
                 ltac:(change (to_Z 0) with 0; lia)).
  pose proof (all_from_spec _ _ _ H1) as H2. cbv beta in H2.
  specialize (H2 ltac:(change (to_Z 1) with 1; lia) (of_Z d)
                 ltac:(change (to_Z 1) with 1; lia)).
  pose proof (all_from_spec _ _ _ H2) as H3. cbv beta in H3.
  specialize (H3 ltac:(change (to_Z 1) with 1; lia) (of_Z r)
                 ltac:(change (to_Z 1) with 1; lia)).
  destruct (lebP (of_Z r) (of_Z d)) as [_|N]; [|lia].
  pose proof (accurate63_spec (of_Z b) (of_Z d) (of_Z r)) as HA.
  rewrite Eb, Ed, Er in HA. specialize (HA ltac:(lia) Hr Hd H3).
  cbv zeta in *. lia.
Qed.

(** X4: on a colour with both channels in 1..255 the recessive channel
    computed before the clamp, times the dominant input channel, lies
    strictly between [b * recessive - 3 * dominant] and
    [b * recessive + 2 * dominant]: it is less than 3 below and less than 2
    above the exact ratio. *)
Theorem setBrightness_ratio_accuracy b white :
  in_u8 b -> valid_color white ->
  exists newCold newWarm,
    setBrightness_raw b white = Some (newCold, newWarm) /\
    (warmWhite white <= coldWhite white ->
       b * warmWhite white - 3 * coldWhite white
         < newWarm * coldWhite white
         < b * warmWhite white + 2 * coldWhite white) /\
    (coldWhite white < warmWhite white ->
       b * coldWhite white - 3 * warmWhite white
         < newCold * warmWhite white
         < b * coldWhite white + 2 * warmWhite white).
Proof.
  intros Hb Hv. pose proof Hv as [Hc Hw]. unfold in_duty in Hc, Hw.
  destruct (Z.le_gt_cases (warmWhite white) (coldWhite white)) as [Hd|Hd].
  - rewrite setBrightness_raw_cold by assumption.
    eexists _, _. split; [reflexivity|]. split; [|lia].
    intros _. apply apply100_accurate; [assumption | lia | lia].
  - rewrite setBrightness_raw_warm by assumption.
    eexists _, _. split; [reflexivity|]. split; [lia|].
    intros _. apply apply100_accurate; [assumption | lia | lia].
Qed.

Lemma setBrightness_ratio_accuracy_witness :
  in_u8 250 /\ valid_color (mkPWM 183 181) /\
  exists newCold newWarm,
    setBrightness_raw 250 (mkPWM 183 181) = Some (newCold, newWarm) /\
    (warmWhite (mkPWM 183 181) <= coldWhite (mkPWM 183 181) ->
       250 * warmWhite (mkPWM 183 181) - 3 * coldWhite (mkPWM 183 181)
         < newWarm * coldWhite (mkPWM 183 181)
         < 250 * warmWhite (mkPWM 183 181) + 2 * coldWhite (mkPWM 183 181)) /\
    (coldWhite (mkPWM 183 181) < warmWhite (mkPWM 183 181) ->
       250 * coldWhite (mkPWM 183 181) - 3 * warmWhite (mkPWM 183 181)
         < newCold * warmWhite (mkPWM 183 181)
         < 250 * coldWhite (mkPWM 183 181) + 2 * warmWhite (mkPWM 183 181)).
Proof.
  assert (Hb : in_u8 250) by (unfold in_u8; lia).
  assert (Hv : valid_color (mkPWM 183 181))
    by (split; unfold in_duty; cbn; lia).
  exact (conj Hb (conj Hv
    (setBrightness_ratio_accuracy 250 (mkPWM 183 181) Hb Hv))).
Defined.

(** ** The fader: closed form, bounds, delays *)

Lemma exec_bind {A} (m : M A) (k : M unit) s s1 :
  exec m s = Some s1 -> exec (m ;;; k) s = exec k s1.
Proof.
  unfold exec, bind. destruct (m s) as [[a s0]|]; [|discriminate].
  intros [= ->]. reflexivity.
Qed.

Lemma quot_steps_bounds x :
  (0 <= x -> 0 <= Z.quot x steps /\ Z.quot x steps * steps <= x) /\
  (x <= 0 -> Z.quot x steps <= 0 /\ x <= Z.quot x steps * steps).
Proof.
  unfold steps. split; intros H.
  - rewrite Z.quot_div_nonneg by lia.
    split; [apply Z.div_pos; lia|]. pose proof (Z.mul_div_le x 50). lia.
  - replace x with (- (- x)) by lia. rewrite Z.quot_opp_l by lia.
    rewrite Z.quot_div_nonneg by lia.
    pose proof (Z.div_pos (- x) 50). pose proof (Z.mul_div_le (- x) 50). lia.
Qed.

Lemma quot_steps_small x : Z.abs x < steps -> Z.quot x steps = 0.
Proof. unfold steps. intros H. apply Z.quot_small_iff; lia. Qed.

Lemma quot_steps_abs x : -255 <= x <= 255 -> Z.abs (Z.quot x steps) <= 5.
Proof.
  intros H. destruct (quot_steps_bounds x) as [P N]. unfold steps in *.
  destruct (Z.le_ge_cases 0 x);
    [specialize (P ltac:(lia)) | specialize (N ltac:(lia))]; lia.
Qed.

Lemma fade_values_lookup n : forall sc sw cc cw (k : nat),
  (k < n)%nat ->
  Z.abs cc + Z.of_nat n * Z.abs sc <= 32767 ->
  Z.abs cw + Z.of_nat n * Z.abs sw <= 32767 ->
  fade_values n sc sw cc cw !! k
  = Some (mkPWM (constrain (cc + Z.of_nat k * sc) 1 255)
                (constrain (cw + Z.of_nat k * sw) 1 255)).
Proof.
  induction n as [|n IH]; intros sc sw cc cw k Hk Hc Hw; [lia|].
  cbn [fade_values]. destruct k as [|k].
  - cbn. rewrite !u8_constrain. do 3 f_equal; lia.
  - cbn [lookup list_lookup]. 
    rewrite !i16_small by lia.
    change ((_ :: ?l) !! S k) with (l !! k).
    rewrite IH by lia. do 3 f_equal; lia.
Qed.

Lemma fade_steps_lookup start stop (k : nat) :
  wf_PWM start -> wf_PWM stop -> (k <= Z.to_nat steps)%nat ->
  fade_steps start stop !! k = Some (fade_point start stop k).
Proof.
  intros [Hc0 Hw0] [Hc1 Hw1] Hk. unfold in_u8 in *.
  pose proof (quot_steps_abs (coldWhite stop - coldWhite start) ltac:(lia)).
  pose proof (quot_steps_abs (warmWhite stop - warmWhite start) ltac:(lia)).
  unfold fade_steps, fade_point. rewrite !i16_small by lia.
  apply fade_values_lookup; unfold steps in *; cbn in *; lia.
Qed.

Lemma delay_values_app t1 t2 :
  delay_values (t1 ++ t2) = delay_values t1 ++ delay_values t2.
Proof.
  induction t1 as [|e t1 IH]; [reflexivity|].
  destruct e; cbn; rewrite IH; reflexivity.
Qed.

Lemma fade_loop_delays n : forall sc sw sd cc cw s,
  exists s', fade_loop n sc sw sd cc cw s = Some (tt, s') /\
    delay_values (trace s')
    = delay_values (trace s) ++ replicate n (u16 sd).
Proof.
  induction n as [|n IH]; intros sc sw sd cc cw s.
  - exists s. split; [reflexivity|]. cbn. symmetry. apply app_nil_r.
  - cbn [fade_loop].
    unfold bind at 1. cbn [setPWM modify]. unfold bind at 1. cbn [mdelay modify].
    match goal with |- context [fade_loop n sc sw sd ?c ?w ?s0] =>
      destruct (IH sc sw sd c w s0) as (s3 & E3 & T3) end.
    exists s3. split; [exact E3|].
    rewrite T3. cbn [trace emit set_OCR]. rewrite !delay_values_app. cbn.
    rewrite app_nil_r, <- app_assoc. reflexivity.
Qed.

Lemma fadePWM_full start stop durationMs s :
  exists s', fadePWM start stop durationMs s = Some (tt, s') /\
    same_globals s s' /\
    pwm_values (trace s')
    = pwm_values (trace s) ++ fade_steps start stop ++ [stop] /\
    delay_values (trace s')
    = delay_values (trace s)
      ++ replicate (S (Z.to_nat steps)) (u16 (i16 (Z.quot durationMs steps))) /\
    OCR1A s' = (if coldWhite stop =? 1 then 0 else coldWhite stop) /\
    OCR1B s' = (if warmWhite stop =? 1 then 0 else warmWhite stop).
Proof.
  destruct (fadePWM_run start stop durationMs s) as (s' & E & G & T).
  exists s'. split; [exact E|]. split; [exact G|]. split; [exact T|].
  unfold fadePWM in E. cbv zeta in E.
  match type of E with context [fade_loop ?n ?sc ?sw ?sd ?c ?w] =>
    destruct (fade_loop_delays n sc sw sd c w s) as (s1 & E1 & D1) end.
  rewrite (bind_run _ _ _ _ _ E1) in E. cbn in E. injection E as <-.
  cbn. rewrite delay_values_app, D1. cbn. rewrite app_nil_r. auto.
Qed.

Lemma fade_steps_length start stop :
  length (fade_steps start stop) = S (Z.to_nat steps).
Proof. apply fade_values_length. Qed.

Lemma fade_all_lookup start stop (k : nat) :
  wf_PWM start -> wf_PWM stop -> (k <= S (Z.to_nat steps))%nat ->
  (fade_steps start stop ++ [stop]) !! k
  = Some (if (k <=? Z.to_nat steps)%nat then fade_point start stop k else stop).
Proof.
  intros Hs Ht Hk. destruct (Nat.leb_spec k (Z.to_nat steps)) as [Hle|Hgt].
  - rewrite lookup_app_l by (rewrite fade_steps_length; lia).
    apply fade_steps_lookup; assumption.
  - rewrite lookup_app_r by (rewrite fade_steps_length; lia).
    rewrite fade_steps_length.
    replace (k - S (Z.to_nat steps))%nat with 0%nat by lia. reflexivity.
Qed.

(** X5: between two byte-valued colours no 16-bit counter of [fadePWM]
    wraps: the colour handed to [setPWM] at step [k], for k = 0..50, is the
    start colour plus [k] truncated step widths, constrained to 1..255, and
    the call after step 50 receives [stop]. *)
Theorem fadePWM_closed_form start stop durationMs s :
  wf_PWM start -> wf_PWM stop ->
  exists s',
    exec (fadePWM start stop durationMs) s = Some s' /\
    (forall k : nat, (k <= Z.to_nat steps)%nat ->
       pwm_values (trace s') !! (length (pwm_values (trace s)) + k)%nat
       = Some (fade_point start stop k)) /\
    pwm_values (trace s')
      !! (length (pwm_values (trace s)) + S (Z.to_nat steps))%nat
    = Some stop.
Proof.
  intros Hs Ht.
  destruct (fadePWM_run start stop durationMs s) as (s' & E & _ & T).
  exists s'. unfold exec. rewrite E. split; [reflexivity|].
  rewrite T. split.
  - intros k Hk. rewrite lookup_app_r by lia.
    replace (length (pwm_values (trace s)) + k - length (pwm_values (trace s)))%nat
      with k by lia.
    rewrite (fade_all_lookup start stop k Hs Ht) by lia.
    destruct (Nat.leb_spec k (Z.to_nat steps)); [reflexivity | lia].
  - rewrite lookup_app_r by lia.
    replace (length (pwm_values (trace s)) + S (Z.to_nat steps)
             - length (pwm_values (trace s)))%nat
      with (S (Z.to_nat steps)) by lia.
    rewrite (fade_all_lookup start stop _ Hs Ht) by lia.
    destruct (Nat.leb_spec (S (Z.to_nat steps)) (Z.to_nat steps)); [lia | reflexivity].
Qed.

Lemma fadePWM_closed_form_witness :
  wf_PWM (mkPWM 10 200) /\ wf_PWM (mkPWM 200 10) /\
  exists s',
    exec (fadePWM (mkPWM 10 200) (mkPWM 200 10) 500) reset_state = Some s' /\
    (forall k : nat, (k <= Z.to_nat steps)%nat ->
       pwm_values (trace s')
         !! (length (pwm_values (trace reset_state)) + k)%nat
       = Some (fade_point (mkPWM 10 200) (mkPWM 200 10) k)) /\
    pwm_values (trace s')
      !! (length (pwm_values (trace reset_state)) + S (Z.to_nat steps))%nat
    = Some (mkPWM 200 10).
Proof.
  assert (HA : wf_PWM (mkPWM 10 200)) by (split; unfold in_u8; cbn; lia).
  assert (HB : wf_PWM (mkPWM 200 10)) by (split; unfold in_u8; cbn; lia).
  exact (conj HA (conj HB
    (fadePWM_closed_form (mkPWM 10 200) (mkPWM 200 10) 500 reset_state
       HA HB))).
Defined.

Lemma fade_values_still n : forall cc cw,
  -32768 <= cc <= 32767 -> -32768 <= cw <= 32767 ->
  fade_values n 0 0 cc cw
  = replicate n (mkPWM (constrain cc 1 255) (constrain cw 1 255)).
Proof.
  induction n as [|n IH]; intros cc cw Hc Hw; [reflexivity|].
  cbn [fade_values replicate]. rewrite !u8_constrain, !Z.add_0_r.
  rewrite !i16_small by lia. rewrite IH by assumption. reflexivity.
Qed.

(** X6: when both channels change by less than 50, the step width is 0:
    all 51 steps repeat the start colour (raised to at least 1) and only
    the final call jumps to [stop]. *)
Theorem fadePWM_small_change_jumps start stop durationMs s :
  wf_PWM start ->
  Z.abs (coldWhite stop - coldWhite start) < steps ->
  Z.abs (warmWhite stop - warmWhite start) < steps ->
  exists s',
    exec (fadePWM start stop durationMs) s = Some s' /\
    pwm_values (trace s')
    = pwm_values (trace s)
      ++ replicate (S (Z.to_nat steps))
           (mkPWM (constrain (coldWhite start) 1 255)
                  (constrain (warmWhite start) 1 255))
      ++ [stop].
Proof.
  intros [Hc Hw] Dc Dw. unfold in_u8 in Hc, Hw.
  destruct (fadePWM_run start stop durationMs s) as (s' & E & _ & T).
  exists s'. unfold exec. rewrite E. split; [reflexivity|].
  rewrite T. unfold fade_steps.
  rewrite !quot_steps_small by assumption.
  change (i16 0) with 0. rewrite fade_values_still by lia. reflexivity.
Qed.

Lemma fadePWM_small_change_jumps_witness :
  wf_PWM (mkPWM 100 100) /\
  Z.abs (coldWhite (mkPWM 120 90) - coldWhite (mkPWM 100 100)) < steps /\
  Z.abs (warmWhite (mkPWM 120 90) - warmWhite (mkPWM 100 100)) < steps /\
  exists s',
    exec (fadePWM (mkPWM 100 100) (mkPWM 120 90) 500) reset_state = Some s' /\
    pwm_values (trace s')
    = pwm_values (trace reset_state)
      ++ replicate (S (Z.to_nat steps))
           (mkPWM (constrain (coldWhite (mkPWM 100 100)) 1 255)
                  (constrain (warmWhite (mkPWM 100 100)) 1 255))
      ++ [mkPWM 120 90].
Proof.
  assert (HA : wf_PWM (mkPWM 100 100)) by (split; unfold in_u8; cbn; lia).
  assert (Hc : Z.abs (coldWhite (mkPWM 120 90) - coldWhite (mkPWM 100 100))
               < steps) by (unfold steps; cbn; lia).
  assert (Hw : Z.abs (warmWhite (mkPWM 120 90) - warmWhite (mkPWM 100 100))
               < steps) by (unfold steps; cbn; lia).
  exact (conj HA (conj Hc (conj Hw
    (fadePWM_small_change_jumps (mkPWM 100 100) (mkPWM 120 90) 500
       reset_state HA Hc Hw)))).
Defined.

(** X7: no step of a fade between two byte-valued colours leaves the range
    spanned by the start and the stop value of its channel (both taken
    through the clamp to 1..255). *)
Theorem fadePWM_no_overshoot start stop durationMs s :
  wf_PWM start -> wf_PWM stop ->
  exists s' vals,
    exec (fadePWM start stop durationMs) s = Some s' /\
    pwm_values (trace s') = pwm_values (trace s) ++ vals ++ [stop] /\
    Forall (fun v =>
      constrain (Z.min (coldWhite start) (coldWhite stop)) 1 255
        <= coldWhite v
        <= constrain (Z.max (coldWhite start) (coldWhite stop)) 1 255 /\
      constrain (Z.min (warmWhite start) (warmWhite stop)) 1 255
        <= warmWhite v
        <= constrain (Z.max (warmWhite start) (warmWhite stop)) 1 255) vals.
Proof.
  intros Hs Ht.
  destruct (fadePWM_run start stop durationMs s) as (s' & E & _ & T).
  exists s', (fade_steps start stop). unfold exec. rewrite E.
  split; [reflexivity|]. split; [exact T|].
  apply Forall_lookup. intros k v Hk.
  assert (Hlt : (k < S (Z.to_nat steps))%nat).
  { rewrite <- (fade_steps_length start stop). eapply lookup_lt_Some, Hk. }
  rewrite (fade_steps_lookup start stop k Hs Ht) in Hk by lia.
  injection Hk as <-. unfold fade_point. cbn [coldWhite warmWhite].
  destruct (quot_steps_bounds (coldWhite stop - coldWhite start)) as [Pc Nc].
  destruct (quot_steps_bounds (warmWhite stop - warmWhite start)) as [Pw Nw].
  assert (Hk50 : 0 <= Z.of_nat k <= 50) by (unfold steps in *; lia).
  unfold steps in *.
  repeat split; apply constrain_mono.
  - destruct (Z.le_ge_cases 0 (coldWhite stop - coldWhite start));
      [specialize (Pc ltac:(lia)) | specialize (Nc ltac:(lia))]; nia.
  - destruct (Z.le_ge_cases 0 (coldWhite stop - coldWhite start));
      [specialize (Pc ltac:(lia)) | specialize (Nc ltac:(lia))]; nia.
  - destruct (Z.le_ge_cases 0 (warmWhite stop - warmWhite start));
      [specialize (Pw ltac:(lia)) | specialize (Nw ltac:(lia))]; nia.
  - destruct (Z.le_ge_cases 0 (warmWhite stop - warmWhite start));
      [specialize (Pw ltac:(lia)) | specialize (Nw ltac:(lia))]; nia.
Qed.

Lemma fadePWM_no_overshoot_witness :
  wf_PWM (mkPWM 10 200) /\ wf_PWM (mkPWM 200 10) /\
  exists s' vals,
    exec (fadePWM (mkPWM 10 200) (mkPWM 200 10) 500) reset_state = Some s' /\
    pwm_values (trace s')
    = pwm_values (trace reset_state) ++ vals ++ [mkPWM 200 10] /\
    Forall (fun v =>
      constrain (Z.min (coldWhite (mkPWM 10 200)) (coldWhite (mkPWM 200 10)))
                1 255
        <= coldWhite v
        <= constrain (Z.max (coldWhite (mkPWM 10 200))
                            (coldWhite (mkPWM 200 10))) 1 255 /\
      constrain (Z.min (warmWhite (mkPWM 10 200)) (warmWhite (mkPWM 200 10)))
                1 255
        <= warmWhite v
        <= constrain (Z.max (warmWhite (mkPWM 10 200))
                            (warmWhite (mkPWM 200 10))) 1 255) vals.
Proof.
  assert (HA : wf_PWM (mkPWM 10 200)) by (split; unfold in_u8; cbn; lia).
  assert (HB : wf_PWM (mkPWM 200 10)) by (split; unfold in_u8; cbn; lia).
  exact (conj HA (conj HB
    (fadePWM_no_overshoot (mkPWM 10 200) (mkPWM 200 10) 500 reset_state
       HA HB))).
Defined.

(** One channel of the fade: the value at step [i] against the value at a
    later step [j], and against the final value [b]. *)
Lemma channel_steps_up a b (i j : nat) :
  0 <= a <= 255 -> a <= b <= 255 -> (i <= j)%nat -> (j <= Z.to_nat steps)%nat ->
  constrain (a + Z.of_nat i * Z.quot (b - a) steps) 1 255
    <= constrain (a + Z.of_nat j * Z.quot (b - a) steps) 1 255 /\
  (1 <= b -> constrain (a + Z.of_nat j * Z.quot (b - a) steps) 1 255 <= b).
Proof.
  intros Ha Hb Hij Hj.
  destruct (quot_steps_bounds (b - a)) as [P _]. specialize (P ltac:(lia)).
  unfold steps in *. split.
  - apply constrain_mono. nia.
  - intros H1. rewrite constrain_spec. nia.
Qed.

Lemma channel_steps_down a b (i j : nat) :
  0 <= a <= 255 -> 0 <= b <= a -> (i <= j)%nat -> (j <= Z.to_nat steps)%nat ->
  constrain (a + Z.of_nat j * Z.quot (b - a) steps) 1 255
    <= constrain (a + Z.of_nat i * Z.quot (b - a) steps) 1 255 /\
  b <= constrain (a + Z.of_nat j * Z.quot (b - a) steps) 1 255.
Proof.
  intros Ha Hb Hij Hj.
  destruct (quot_steps_bounds (b - a)) as [_ N]. specialize (N ltac:(lia)).
  unfold steps in *. split.
  - apply constrain_mono. nia.
  - rewrite constrain_spec. nia.
Qed.

Ltac fade_lookups Hs Ht :=
  let i := fresh "i" in let j := fresh "j" in
  let x := fresh "x" in let y := fresh "y" in
  let Hij := fresh "Hij" in let Hi := fresh "Hi" in let Hj := fresh "Hj" in
  intros i j x y Hij Hi Hj;
  assert (j < S (S (Z.to_nat steps)))%nat
    by (apply lookup_lt_Some in Hj;
        rewrite length_app, fade_steps_length in Hj; cbn in Hj; lia);
  rewrite (fade_all_lookup _ _ i Hs Ht) in Hi by lia;
  rewrite (fade_all_lookup _ _ j Hs Ht) in Hj by lia;
  injection Hi as <-; injection Hj as <-;
  destruct (Nat.leb_spec i (Z.to_nat steps));
  destruct (Nat.leb_spec j (Z.to_nat steps)); try lia;
  unfold fade_point; cbn [coldWhite warmWhite].

(** X8: each channel of a fade between two byte-valued colours, the final
    call included, moves in one direction only: it never decreases when
    the channel goes up to a stop value of at least 1, and never increases
    when it goes down. *)
Theorem fadePWM_monotone_each_channel start stop durationMs s :
  wf_PWM start -> wf_PWM stop ->
  exists s' vals,
    exec (fadePWM start stop durationMs) s = Some s' /\
    pwm_values (trace s') = pwm_values (trace s) ++ vals /\
    length vals = Z.to_nat (steps + 2) /\
    (coldWhite start <= coldWhite stop -> 1 <= coldWhite stop ->
       monotone_on coldWhite Z.le vals) /\
    (coldWhite stop <= coldWhite start -> monotone_on coldWhite Z.ge vals) /\
    (warmWhite start <= warmWhite stop -> 1 <= warmWhite stop ->
       monotone_on warmWhite Z.le vals) /\
    (warmWhite stop <= warmWhite start -> monotone_on warmWhite Z.ge vals).
Proof.
  intros Hs Ht. pose proof Hs as [Hc0 Hw0]. pose proof Ht as [Hc1 Hw1].
  unfold in_u8 in Hc0, Hw0, Hc1, Hw1.
  destruct (fadePWM_run start stop durationMs s) as (s' & E & _ & T).
  exists s', (fade_steps start stop ++ [stop]). unfold exec. rewrite E.
  split; [reflexivity|]. split; [exact T|].
  split; [rewrite length_app, fade_steps_length; reflexivity|].
  split; [|split; [|split]].
  - intros Hle H1. fade_lookups Hs Ht.
    + apply (channel_steps_up (coldWhite start) (coldWhite stop) i j); lia.
    + apply (channel_steps_up (coldWhite start) (coldWhite stop) i i); lia.
  - intros Hle. fade_lookups Hs Ht; apply Z.le_ge.
    + apply (channel_steps_down (coldWhite start) (coldWhite stop) i j); lia.
    + apply (channel_steps_down (coldWhite start) (coldWhite stop) i i); lia.
  - intros Hle H1. fade_lookups Hs Ht.
    + apply (channel_steps_up (warmWhite start) (warmWhite stop) i j); lia.
    + apply (channel_steps_up (warmWhite start) (warmWhite stop) i i); lia.
  - intros Hle. fade_lookups Hs Ht; apply Z.le_ge.
    + apply (channel_steps_down (warmWhite start) (warmWhite stop) i j); lia.
    + apply (channel_steps_down (warmWhite start) (warmWhite stop) i i); lia.
Qed.

Lemma fadePWM_monotone_each_channel_witness :
  wf_PWM (mkPWM 10 200) /\ wf_PWM (mkPWM 200 10) /\
  exists s' vals,
    exec (fadePWM (mkPWM 10 200) (mkPWM 200 10) 500) reset_state = Some s' /\
    pwm_values (trace s') = pwm_values (trace reset_state) ++ vals /\
    length vals = Z.to_nat (steps + 2) /\
    monotone_on coldWhite Z.le vals /\ monotone_on warmWhite Z.ge vals.
Proof.
  assert (HA : wf_PWM (mkPWM 10 200)) by (split; unfold in_u8; cbn; lia).
  assert (HB : wf_PWM (mkPWM 200 10)) by (split; unfold in_u8; cbn; lia).
  split; [exact HA|]. split; [exact HB|].
  destruct (fadePWM_monotone_each_channel (mkPWM 10 200) (mkPWM 200 10) 500
              reset_state HA HB) as (s' & vals & E & T & L & Cu & _ & _ & Wd).
  exists s', vals.
  refine (conj E (conj T (conj L (conj (Cu _ _) (Wd _))))); cbn; lia.
Defined.

(** X9: for a duration of 0..32767 ms [fadePWM] calls [mdelay] 51 times,
    not 50, each time with [durationMs / 50]; it leaves the compare
    registers at the stop colour (0 for a channel value of 1) and does not
    touch the globals or the EEPROM. *)
Theorem fadePWM_delays_and_registers start stop durationMs s :
  0 <= durationMs <= 32767 ->
  exists s',
    exec (fadePWM start stop durationMs) s = Some s' /\
    delay_values (trace s')
    = delay_values (trace s)
      ++ replicate (Z.to_nat (steps + 1)) (durationMs / steps) /\
    OCR1A s' = (if coldWhite stop =? 1 then 0 else coldWhite stop) /\
    OCR1B s' = (if warmWhite stop =? 1 then 0 else warmWhite stop) /\
    same_globals s s'.
Proof.
  intros Hd.
  destruct (fadePWM_full start stop durationMs s)
    as (s' & E & G & _ & D & A & B).
  exists s'. unfold exec. rewrite E. split; [reflexivity|].
  split; [|auto].
  rewrite D. unfold steps in *.
  rewrite Z.quot_div_nonneg by lia.
  assert (0 <= durationMs / 50 < 656).
  { split; [apply Z.div_pos; lia | apply Z.div_lt_upper_bound; lia]. }
  rewrite i16_small, u16_small by lia. reflexivity.
Qed.

Lemma fadePWM_delays_and_registers_witness :
  0 <= 500 <= 32767 /\
  exists s',
    exec (fadePWM (mkPWM 200 100) (mkPWM 0 0) 500) reset_state = Some s' /\
    delay_values (trace s')
    = delay_values (trace reset_state)
      ++ replicate (Z.to_nat (steps + 1)) (500 / steps) /\
    OCR1A s' = (if coldWhite (mkPWM 0 0) =? 1 then 0
                else coldWhite (mkPWM 0 0)) /\
    OCR1B s' = (if warmWhite (mkPWM 0 0) =? 1 then 0
                else warmWhite (mkPWM 0 0)) /\
    same_globals reset_state s'.
Proof.
  assert (Hd : 0 <= 500 <= 32767) by lia.
  exact (conj Hd
    (fadePWM_delays_and_registers (mkPWM 200 100) (mkPWM 0 0) 500
       reset_state Hd)).
Defined.

(** ** The command interpreter: what each command writes *)

Lemma setBrightness_max b white r :
  in_u8 b -> valid_color white -> setBrightness b white = Some r ->
  Z.max (coldWhite r) (warmWhite r) = Z.max 1 b.
Proof.
  intros Hb Hv Hr. pose proof Hv as [Hc Hw]. unfold in_u8, in_duty in *.
  rewrite setBrightness_closed in Hr by assumption. injection Hr as <-.
  destruct (Z.geb_spec (coldWhite white) (warmWhite white)); cbn;
    match goal with |- context [apply100 b (ratio100 ?d ?r)] =>
      pose proof (apply100_range b (ratio100 d r) Hb
                    (ratio100_range d r ltac:(lia) ltac:(lia))) end;
    rewrite !constrain_spec; lia.
Qed.

Lemma toggle_run s :
  exists s',
    processNECCommand 69 s = Some (tt, s') /\
    same_globals (set_is_on (negb (is_on s)) s) s' /\
    pwm_values (trace s')
    = pwm_values (trace s)
      ++ (if is_on s
          then fade_steps (whiteColor s) (mkPWM 0 0) ++ [mkPWM 0 0]
          else fade_steps (mkPWM 0 0) (whiteColor s) ++ [whiteColor s]) /\
    OCR1A s' = (if is_on s then 0
                else if coldWhite (whiteColor s) =? 1 then 0
                     else coldWhite (whiteColor s)) /\
    OCR1B s' = (if is_on s then 0
                else if warmWhite (whiteColor s) =? 1 then 0
                     else warmWhite (whiteColor s)).
Proof.
  unfold processNECCommand. cbn [Z.eqb Pos.eqb].
  unfold bind at 1. cbn [get]. unfold bind at 1. cbn [modify].
  destruct (is_on s) eqn:Hon; cbn [negb].
  - destruct (fadePWM_full (whiteColor s) (mkPWM 0 0) default_durationMs
                (set_is_on false s)) as (s' & E & G & T & _ & A & B).
    exists s'. repeat split; try apply G; assumption.
  - destruct (fadePWM_full (mkPWM 0 0) (whiteColor s) default_durationMs
                (set_is_on true s)) as (s' & E & G & T & _ & A & B).
    exists s'. repeat split; try apply G; assumption.
Qed.

Lemma preset_run s r :
  setBrightness (brightness s)
    (preset (u8 (Z.rem (current_preset s + 1) 5))) = Some r ->
  exists s',
    processNECCommand 71 s = Some (tt, s') /\
    same_globals
      (set_whiteColor r
         (set_current_preset (u8 (Z.rem (current_preset s + 1) 5)) s)) s' /\
    pwm_values (trace s')
    = pwm_values (trace s) ++ fade_steps (whiteColor s) r ++ [r].
Proof.
  intros Hr.
  unfold processNECCommand. cbn [Z.eqb Pos.eqb].
  unfold bind at 1. cbn [get]. unfold bind at 1. cbn [modify].
  rewrite (bind_run _ _ _ _ _ (lift_run _ _ _ Hr)).
  destruct (fadePWM_run (whiteColor s) r default_durationMs
    (set_current_preset (u8 (Z.rem (current_preset s + 1) 5)) s))
    as (s1 & E & G & T).
  rewrite (bind_run _ _ _ _ _ E).
  eexists. split; [reflexivity|].
  destruct G as (Gw & Gb & Gp & Go & Gn & Ge).
  split; [repeat split; cbn; assumption|]. exact T.
Qed.

Lemma enter_night_run s :
  is_night s = false ->
  exists s',
    processNECCommand 8 s = Some (tt, s') /\
    same_globals (set_is_night true s) s' /\
    pwm_values (trace s')
    = pwm_values (trace s) ++ fade_steps (whiteColor s) night_color
      ++ [night_color] /\
    OCR1A s' = 0 /\ OCR1B s' = 5.
Proof.
  intros Hn.
  unfold processNECCommand. cbn [Z.eqb Pos.eqb].
  unfold bind at 1. cbn [get]. unfold bind at 1. cbn [modify].
  rewrite Hn. cbn [negb].
  rewrite (bind_run _ _ _ _ _ (lift_run _ _ _ night_dim)).
  destruct (fadePWM_full (whiteColor s) night_color default_durationMs
              (set_is_night true s)) as (s' & E & G & T & _ & A & B).
  exists s'. repeat split; try apply G; assumption.
Qed.

Lemma leave_night_run s :
  is_night s = true ->
  exists s',
    processNECCommand 8 s = Some (tt, s') /\
    same_globals
      (set_brightness (Z.max (coldWhite (persisted s)) (warmWhite (persisted s)))
         (set_whiteColor (persisted s) (set_is_night false s))) s' /\
    pwm_values (trace s')
    = pwm_values (trace s) ++ fade_steps night_color (persisted s)
      ++ [persisted s].
Proof.
  intros Hn.
  unfold processNECCommand. cbn [Z.eqb Pos.eqb].
  unfold bind at 1. cbn [get]. unfold bind at 1. cbn [modify].
  rewrite Hn. cbn [negb].
  rewrite (bind_run _ _ _ _ _ (readColor_run _)).
  unfold bind at 1. cbn [modify].
  rewrite (bind_run _ _ _ _ _
             (getBrightness_current (persisted s)
                (set_whiteColor (persisted s) (set_is_night false s))
                eq_refl)).
  unfold bind at 1. cbn [modify].
  rewrite (bind_run _ _ _ _ _ (lift_run _ _ _ night_dim)).
  match goal with |- context [fadePWM ?a ?b ?d ?s0] =>
    destruct (fadePWM_run a b d s0) as (s' & E & G & T) end.
  exists s'. split; [exact E|]. split; [exact G|]. exact T.
Qed.

Ltac frame_step :=
  match goal with
  | |- _ /\ _ => split
  | |- ?c <> _ -> _ => let H := fresh in intros H; try (exfalso; lia)
  | |- ~ In _ _ -> _ =>
      let H := fresh in intros H; cbn [In] in H; try (exfalso; lia)
  end.

Lemma processNECCommand_summary command s :
  inv s ->
  exists s',
    exec (processNECCommand command) s = Some s' /\
    (command <> 69 -> is_on s' = is_on s) /\
    (command <> 8 -> is_night s' = is_night s) /\
    (command <> 71 -> current_preset s' = current_preset s) /\
    (command <> 28 -> EEPROM s' = EEPROM s) /\
    (~ In command [9; 7; 25; 64; 8] -> brightness s' = brightness s) /\
    (~ In command [71; 9; 7; 25; 64; 8; 12; 24; 94] ->
       whiteColor s' = whiteColor s) /\
    (~ In command [12; 24; 94] -> linked s -> linked s').
Proof.
  intros Hi. pose proof Hi as (Hw & Hb & Hp & He).
  pose proof Hw as [Hwc Hww].
  destruct (Z.eq_dec command 69) as [->|N69].
  { destruct (toggle_run s) as (s' & E & G & _).
    destruct G as (Gw & Gb & Gp & Go & Gn & Ge).
    cbn in Gw, Gb, Gp, Go, Gn, Ge.
    exists s'. unfold exec. rewrite E. split; [reflexivity|].
    repeat frame_step; try assumption.
    unfold linked. rewrite Gw, Gb. auto. }
  destruct (Z.eq_dec command 71) as [->|N71].
  { pose proof (next_preset_range _ Hp) as Hp'.
    destruct (setBrightness_valid (brightness s)
                (preset (u8 (Z.rem (current_preset s + 1) 5))) Hb
                (preset_valid _ Hp')) as (r & Hr & Hv).
    destruct (preset_run s r Hr) as (s' & E & G & _).
    destruct G as (Gw & Gb & Gp & Go & Gn & Ge).
    cbn in Gw, Gb, Gp, Go, Gn, Ge.
    exists s'. unfold exec. rewrite E. split; [reflexivity|].
    repeat frame_step; try assumption.
    intros _. unfold linked. rewrite Gw, Gb.
    apply (setBrightness_max _ _ _ Hb (preset_valid _ Hp') Hr). }
  destruct (Z.eq_dec command 9) as [->|N9].
  { assert (Hb' : in_u8 (Z.min (brightness s + 4) 255))
      by (unfold in_u8 in *; lia).
    destruct (setBrightness_valid _ (whiteColor s) Hb' Hw) as (r & Hr & Hv).
    exists (stepped (Z.min (brightness s + 4) 255) r s).
    unfold exec. rewrite (brighter_run s r Hb Hr). split; [reflexivity|].
    repeat frame_step; try reflexivity.
    intros _. unfold linked. cbn.
    apply (setBrightness_max _ _ _ Hb' Hw Hr). }
  destruct (Z.eq_dec command 7) as [->|N7].
  { assert (Hb' : in_u8 (Z.max (brightness s - 4) 0))
      by (unfold in_u8 in *; lia).
    destruct (setBrightness_valid _ (whiteColor s) Hb' Hw) as (r & Hr & Hv).
    exists (stepped (Z.max (brightness s - 4) 0) r s).
    unfold exec. rewrite (darker_run s r Hb Hr). split; [reflexivity|].
    repeat frame_step; try reflexivity.
    intros _. unfold linked. cbn.
    apply (setBrightness_max _ _ _ Hb' Hw Hr). }
  destruct (Z.eq_dec command 25) as [->|N25].
  { destruct (shifted_valid _ _ Hwc Hww) as ([V1 V2] & _ & _ & _).
    unfold in_duty in V1, V2. cbn in V1, V2.
    eexists. split; [reflexivity|].
    repeat frame_step; try reflexivity.
    intros _. unfold linked. cbn.
    match goal with |- context [?a >? ?b] => destruct (Z.gtb_spec a b) end; lia. }
  destruct (Z.eq_dec command 64) as [->|N64].
  { destruct (shifted_valid _ _ Hwc Hww) as (_ & [V1 V2] & _ & _).
    unfold in_duty in V1, V2. cbn in V1, V2.
    eexists. split; [reflexivity|].
    repeat frame_step; try reflexivity.
    intros _. unfold linked. cbn.
    match goal with |- context [?a >? ?b] => destruct (Z.gtb_spec a b) end; lia. }
  destruct (Z.eq_dec command 8) as [->|N8].
  { destruct (is_night s) eqn:Hn.
    - destruct (leave_night_run s Hn) as (s' & E & G & _).
      destruct G as (Gw & Gb & Gp & Go & Gn & Ge).
    cbn in Gw, Gb, Gp, Go, Gn, Ge.
      exists s'. unfold exec. rewrite E. split; [reflexivity|].
      repeat frame_step; try assumption.
      intros _. unfold linked. rewrite Gw, Gb.
      destruct He as [H1 H2]. unfold in_duty, persisted in H1, H2.
      cbn in H1, H2. unfold persisted. cbn. lia.
    - destruct (enter_night_run s Hn) as (s' & E & G & _).
      destruct G as (Gw & Gb & Gp & Go & Gn & Ge).
    cbn in Gw, Gb, Gp, Go, Gn, Ge.
      exists s'. unfold exec. rewrite E. split; [reflexivity|].
      repeat frame_step; try assumption.
      unfold linked. rewrite Gw, Gb. auto. }
  assert (Hlevel : forall level, in_u8 level ->
    exists s',
      exec (s0 <- get ;;
            newColor <- lift (setBrightness level (whiteColor s0)) ;;
            fadePWM (whiteColor s0) newColor default_durationMs ;;;
            modify (set_whiteColor newColor)) s = Some s' /\
      is_on s' = is_on s /\ is_night s' = is_night s /\
      current_preset s' = current_preset s /\ EEPROM s' = EEPROM s /\
      brightness s' = brightness s).
  { intros level Hl.
    destruct (setBrightness_valid level (whiteColor s) Hl Hw) as (r & Hr & Hv).
    destruct (fixed_level_run level s r Hr)
      as (s' & E & Gw & Gb & Gp & Go & Gn & Ge).
    exists s'. unfold exec. rewrite E. auto 10. }
  destruct (Z.eq_dec command 12) as [->|N12].
  { destruct (Hlevel 25 ltac:(unfold in_u8; lia)) as (s' & E & F).
    exists s'. split; [exact E|]. destruct F as (? & ? & ? & ? & ?).
    repeat frame_step; assumption. }
  destruct (Z.eq_dec command 24) as [->|N24].
  { destruct (Hlevel 128 ltac:(unfold in_u8; lia)) as (s' & E & F).
    exists s'. split; [exact E|]. destruct F as (? & ? & ? & ? & ?).
    repeat frame_step; assumption. }
  destruct (Z.eq_dec command 94) as [->|N94].
  { destruct (Hlevel 255 ltac:(unfold in_u8; lia)) as (s' & E & F).
    exists s'. split; [exact E|]. destruct F as (? & ? & ? & ? & ?).
    repeat frame_step; assumption. }
  destruct (Z.eq_dec command 28) as [->|N28].
  { eexists. split; [reflexivity|].
    repeat frame_step; try reflexivity. auto. }
  exists s. split.
  { unfold exec, processNECCommand.
    repeat match goal with |- context [command =? ?k] =>
      destruct (Z.eqb_spec command k); [lia|] end.
    reflexivity. }
  repeat frame_step; auto.
Qed.

Lemma run_commands_cons c cs s s1 :
  processNECCommand c s = Some (tt, s1) ->
  exec (run_commands (c :: cs)) s = exec (run_commands cs) s1.
Proof.
  intros E. cbn [run_commands]. apply exec_bind. unfold exec. rewrite E.
  reflexivity.
Qed.

Lemma last_fade start stop (l : list PWMdata) :
  last (l ++ fade_steps start stop ++ [stop]) = Some stop.
Proof. rewrite !app_assoc. apply last_snoc. Qed.

(** X10: from a state with valid colours every command returns, and each
    global has its own writers: only 69 changes [is_on], only 8
    [is_night], only 71 [current_preset], only 28 the EEPROM, only 9, 7,
    25, 64 and 8 [brightness], and 69, 28 and unknown codes leave
    [whiteColor] alone. *)
Theorem processNECCommand_writes command s :
  inv s ->
  exists s',
    exec (processNECCommand command) s = Some s' /\
    (command <> 69 -> is_on s' = is_on s) /\
    (command <> 8 -> is_night s' = is_night s) /\
    (command <> 71 -> current_preset s' = current_preset s) /\
    (command <> 28 -> EEPROM s' = EEPROM s) /\
    (~ In command [9; 7; 25; 64; 8] -> brightness s' = brightness s) /\
    (~ In command [71; 9; 7; 25; 64; 8; 12; 24; 94] ->
       whiteColor s' = whiteColor s).
Proof.
  intros Hi.
  destruct (processNECCommand_summary command s Hi)
    as (s' & E & F1 & F2 & F3 & F4 & F5 & F6 & _).
  exists s'. auto 10.
Qed.

Lemma processNECCommand_writes_witness :
  inv reset_state /\
  exists s',
    exec (processNECCommand 9) reset_state = Some s' /\
    (9 <> 69 -> is_on s' = is_on reset_state) /\
    (9 <> 8 -> is_night s' = is_night reset_state) /\
    (9 <> 71 -> current_preset s' = current_preset reset_state) /\
    (9 <> 28 -> EEPROM s' = EEPROM reset_state) /\
    (~ In 9 [9; 7; 25; 64; 8] -> brightness s' = brightness reset_state) /\
    (~ In 9 [71; 9; 7; 25; 64; 8; 12; 24; 94] ->
       whiteColor s' = whiteColor reset_state).
Proof.
  assert (Hi : inv reset_state) by (repeat split; cbv; discriminate).
  exact (conj Hi (processNECCommand_writes 9 reset_state Hi)).
Defined.

(** X11: every command except the fixed levels 12, 24 and 94 keeps
    [brightness] equal to the larger channel of [whiteColor] (with 1 for a
    brightness of 0). *)
Theorem brightness_tracks_dominant command s :
  inv s -> linked s -> ~ In command [12; 24; 94] ->
  exists s', exec (processNECCommand command) s = Some s' /\ linked s'.
Proof.
  intros Hi Hl Hc.
  destruct (processNECCommand_summary command s Hi)
    as (s' & E & _ & _ & _ & _ & _ & _ & L).
  exists s'. auto.
Qed.

Lemma brightness_tracks_dominant_witness :
  inv reset_state /\ linked reset_state /\ ~ In 71 [12; 24; 94] /\
  exists s', exec (processNECCommand 71) reset_state = Some s' /\ linked s'.
Proof.
  assert (Hi : inv reset_state) by (repeat split; cbv; discriminate).
  assert (Hl : linked reset_state) by reflexivity.
  assert (Hc : ~ In 71 [12; 24; 94]) by (cbn; lia).
  exact (conj Hi (conj Hl (conj Hc
    (brightness_tracks_dominant 71 reset_state Hi Hl Hc)))).
Defined.

(** X12: command 69 flips [is_on] and ends on the colour {0,0} (both
    compare registers 0) when switching off, on [whiteColor] when switching
    on, whatever [is_night] is; pressed twice it restores all globals. *)
Theorem toggle_power_twice s :
  exists s1 s2,
    exec (processNECCommand 69) s = Some s1 /\
    is_on s1 = negb (is_on s) /\
    last (pwm_values (trace s1))
      = Some (if is_on s then mkPWM 0 0 else whiteColor s) /\
    (is_on s = true -> OCR1A s1 = 0 /\ OCR1B s1 = 0) /\
    exec (run_commands [69; 69]) s = Some s2 /\
    same_globals s s2 /\
    last (pwm_values (trace s2))
      = Some (if is_on s then whiteColor s else mkPWM 0 0).
Proof.
  destruct (toggle_run s) as (s1 & E1 & G1 & T1 & A1 & B1).
  destruct (toggle_run s1) as (s2 & E2 & G2 & T2 & _).
  destruct G1 as (Gw1 & Gb1 & Gp1 & Go1 & Gn1 & Ge1).
  destruct G2 as (Gw2 & Gb2 & Gp2 & Go2 & Gn2 & Ge2).
  cbn in Gw1, Gb1, Gp1, Go1, Gn1, Ge1, Gw2, Gb2, Gp2, Go2, Gn2, Ge2.
  exists s1, s2.
  split; [unfold exec; rewrite E1; reflexivity|].
  split; [exact Go1|].
  split; [rewrite T1; destruct (is_on s); apply last_fade|].
  split; [intros Hon; rewrite A1, B1, Hon; auto|].
  split; [rewrite (run_commands_cons _ _ _ _ E1),
                  (run_commands_cons _ _ _ _ E2); reflexivity|].
  split.
  - repeat split; try congruence.
    rewrite Go2, Go1. apply negb_involutive.
  - rewrite T2, Go1, Gw1. destruct (is_on s); apply last_fade.
Qed.

Lemma preset_press s :
  in_u8 (brightness s) -> 0 <= current_preset s < 5 ->
  exists s',
    processNECCommand 71 s = Some (tt, s') /\
    current_preset s' = (current_preset s + 1) mod 5 /\
    brightness s' = brightness s /\
    setBrightness (brightness s) (preset ((current_preset s + 1) mod 5))
      = Some (whiteColor s') /\
    is_on s' = is_on s /\ is_night s' = is_night s /\ EEPROM s' = EEPROM s.
Proof.
  intros Hb Hp.
  assert (E5 : u8 (Z.rem (current_preset s + 1) 5)
               = (current_preset s + 1) mod 5).
  { rewrite Z.rem_mod_nonneg by lia.
    pose proof (Z.mod_pos_bound (current_preset s + 1) 5 ltac:(lia)).
    apply u8_small. lia. }
  pose proof (next_preset_range _ Hp) as Hp'.
  destruct (setBrightness_valid (brightness s) _ Hb (preset_valid _ Hp'))
    as (r & Hr & _).
  destruct (preset_run s r Hr) as (s' & E & G & _).
  destruct G as (Gw & Gb & Gp & Go & Gn & Ge).
  cbn in Gw, Gb, Gp, Go, Gn, Ge.
  exists s'. rewrite <- E5. rewrite Gw. auto 10.
Qed.

(** X13: five presses of command 71 return to the preset they started
    from, with the brightness unchanged and [whiteColor] that preset scaled
    to the brightness. *)
Theorem preset_cycle_of_five s :
  in_u8 (brightness s) -> 0 <= current_preset s < 5 ->
  exists s',
    exec (run_commands [71; 71; 71; 71; 71]) s = Some s' /\
    current_preset s' = current_preset s /\
    brightness s' = brightness s /\
    setBrightness (brightness s) (preset (current_preset s))
      = Some (whiteColor s') /\
    is_on s' = is_on s /\ is_night s' = is_night s /\ EEPROM s' = EEPROM s.
Proof.
  intros Hb Hp.
  assert (Hm : forall p, 0 <= (p + 1) mod 5 < 5)
    by (intros p; apply Z.mod_pos_bound; lia).
  destruct (preset_press s Hb Hp)
    as (s1 & E1 & P1 & B1 & _ & O1 & N1 & R1).
  destruct (preset_press s1) as (s2 & E2 & P2 & B2 & _ & O2 & N2 & R2);
    [congruence | rewrite P1; apply Hm |].
  destruct (preset_press s2) as (s3 & E3 & P3 & B3 & _ & O3 & N3 & R3);
    [congruence | rewrite P2; apply Hm |].
  destruct (preset_press s3) as (s4 & E4 & P4 & B4 & _ & O4 & N4 & R4);
    [congruence | rewrite P3; apply Hm |].
  destruct (preset_press s4) as (s5 & E5 & P5 & B5 & W5 & O5 & N5 & R5);
    [congruence | rewrite P4; apply Hm |].
  assert (Pfinal : (current_preset s4 + 1) mod 5 = current_preset s).
  { rewrite P4, P3, P2, P1.
    assert (C : current_preset s = 0 \/ current_preset s = 1 \/
                current_preset s = 2 \/ current_preset s = 3 \/
                current_preset s = 4) by lia.
    destruct C as [->|[->|[->|[->| ->]]]]; reflexivity. }
  exists s5.
  rewrite (run_commands_cons _ _ _ _ E1), (run_commands_cons _ _ _ _ E2),
    (run_commands_cons _ _ _ _ E3), (run_commands_cons _ _ _ _ E4),
    (run_commands_cons _ _ _ _ E5).
  split; [reflexivity|].
  rewrite Pfinal in P5, W5.
  assert (Bfinal : brightness s4 = brightness s) by congruence.
  rewrite Bfinal in W5.
  repeat split; congruence.
Qed.

Lemma preset_cycle_of_five_witness :
  in_u8 (brightness reset_state) /\ 0 <= current_preset reset_state < 5 /\
  exists s',
    exec (run_commands [71; 71; 71; 71; 71]) reset_state = Some s' /\
    current_preset s' = current_preset reset_state /\
    brightness s' = brightness reset_state /\
    setBrightness (brightness reset_state)
      (preset (current_preset reset_state)) = Some (whiteColor s') /\
    is_on s' = is_on reset_state /\ is_night s' = is_night reset_state /\
    EEPROM s' = EEPROM reset_state.
Proof.
  assert (Hb : in_u8 (brightness reset_state)) by (unfold in_u8; cbn; lia).
  assert (Hp : 0 <= current_preset reset_state < 5) by (cbn; lia).
  exact (conj Hb (conj Hp (preset_cycle_of_five reset_state Hb Hp))).
Defined.

(** X14: command 64 (warmer) is command 25 (colder) with the two channels
    exchanged: same brightness, mirrored colour. *)
Theorem shift_warmer_mirrors_colder s :
  exists s1 s2,
    exec (processNECCommand 64) s = Some s1 /\
    exec (processNECCommand 25) (set_whiteColor (swap (whiteColor s)) s)
      = Some s2 /\
    whiteColor s1 = swap (whiteColor s2) /\
    brightness s1 = brightness s2 /\
    last (pwm_values (trace s1)) = Some (whiteColor s1).
Proof.
  eexists _, _. split; [reflexivity|]. split; [reflexivity|]. cbn.
  split; [reflexivity|]. split.
  - repeat match goal with |- context [?a >? ?b] =>
      destruct (Z.gtb_spec a b) end; lia.
  - rewrite pwm_values_app. apply last_snoc.
Qed.

(** X15: away from the saturation points (cold in 1..251, warm in 5..255)
    command 25 followed by command 64 restores [whiteColor]; the brightness
    becomes the larger channel. *)
Theorem colder_then_warmer_restores s :
  1 <= coldWhite (whiteColor s) <= 251 ->
  5 <= warmWhite (whiteColor s) <= 255 ->
  exists s',
    exec (run_commands [25; 64]) s = Some s' /\
    whiteColor s' = whiteColor s /\
    brightness s'
      = Z.max (coldWhite (whiteColor s)) (warmWhite (whiteColor s)).
Proof.
  intros Hc Hw. destruct s as [[c w] b p on night a1 b1 rom tr].
  cbn in Hc, Hw.
  eexists. split; [reflexivity|]. cbn.
  assert (Ec : at_least_one (step_up c) = Z.min (c + 4) 255).
  { rewrite step_up_spec, at_least_one_spec by (unfold in_u8; lia). lia. }
  assert (Ew : at_least_one (step_down w) = w - 4).
  { rewrite step_down_spec, at_least_one_spec by (unfold in_u8; lia). lia. }
  rewrite Ec, Ew.
  assert (Ec' : at_least_one (step_down (Z.min (c + 4) 255)) = c).
  { rewrite step_down_spec, at_least_one_spec by (unfold in_u8; lia). lia. }
  assert (Ew' : at_least_one (step_up (w - 4)) = w).
  { rewrite step_up_spec, at_least_one_spec by (unfold in_u8; lia). lia. }
  rewrite Ec', Ew'. split; [reflexivity|].
  destruct (Z.gtb_spec c w); lia.
Qed.

Lemma colder_then_warmer_restores_witness :
  1 <= coldWhite (whiteColor reset_state) <= 251 /\
  5 <= warmWhite (whiteColor reset_state) <= 255 /\
  exists s',
    exec (run_commands [25; 64]) reset_state = Some s' /\
    whiteColor s' = whiteColor reset_state /\
    brightness s'
      = Z.max (coldWhite (whiteColor reset_state))
              (warmWhite (whiteColor reset_state)).
Proof.
  assert (Hc : 1 <= coldWhite (whiteColor reset_state) <= 251) by (cbn; lia).
  assert (Hw : 5 <= warmWhite (whiteColor reset_state) <= 255) by (cbn; lia).
  exact (conj Hc (conj Hw (colder_then_warmer_restores reset_state Hc Hw))).
Defined.



(** X17: entering and leaving night mode replaces [whiteColor] by the
    stored colour, whatever it was before, sets [brightness] to the stored
    colour's larger channel and ends the output on the stored colour. *)
Theorem night_cycle_loads_stored s :
  is_night s = false ->
  exists s',
    exec (run_commands [8; 8]) s = Some s' /\
    whiteColor s' = persisted s /\
    brightness s'
      = Z.max (coldWhite (persisted s)) (warmWhite (persisted s)) /\
    is_night s' = false /\ is_on s' = is_on s /\
    current_preset s' = current_preset s /\ EEPROM s' = EEPROM s /\
    last (pwm_values (trace s')) = Some (persisted s).
Proof.
  intros Hn.
  destruct (enter_night_run s Hn) as (s1 & E1 & G1 & _).
  destruct G1 as (Gw1 & Gb1 & Gp1 & Go1 & Gn1 & Ge1).
  cbn in Gw1, Gb1, Gp1, Go1, Gn1, Ge1.
  destruct (leave_night_run s1 Gn1) as (s2 & E2 & G2 & T2).
  destruct G2 as (Gw2 & Gb2 & Gp2 & Go2 & Gn2 & Ge2).
  change (whiteColor s2 = persisted s1) in Gw2.
  change (brightness s2
          = Z.max (coldWhite (persisted s1)) (warmWhite (persisted s1))) in Gb2.
  change (current_preset s2 = current_preset s1) in Gp2.
  change (is_on s2 = is_on s1) in Go2.
  change (is_night s2 = false) in Gn2.
  change (EEPROM s2 = EEPROM s1) in Ge2.
  assert (Ep : persisted s1 = persisted s)
    by (unfold persisted; rewrite Ge1; reflexivity).
  rewrite Ep in Gw2, Gb2, T2.
  exists s2.
  rewrite (run_commands_cons _ _ _ _ E1), (run_commands_cons _ _ _ _ E2).
  split; [reflexivity|].
  repeat split; try congruence.
  rewrite T2. apply last_fade.
Qed.

Lemma night_cycle_loads_stored_witness :
  is_night reset_state = false /\
  exists s',
    exec (run_commands [8; 8]) reset_state = Some s' /\
    whiteColor s' = persisted reset_state /\
    brightness s'
      = Z.max (coldWhite (persisted reset_state))
              (warmWhite (persisted reset_state)) /\
    is_night s' = false /\ is_on s' = is_on reset_state /\
    current_preset s' = current_preset reset_state /\
    EEPROM s' = EEPROM reset_state /\
    last (pwm_values (trace s')) = Some (persisted reset_state).
Proof.
  exact (conj eq_refl (night_cycle_loads_stored reset_state eq_refl)).
Defined.

(** ** The main loop *)

Section LoopProperties.
Variables NEC ONKYO : Z.

Lemma loop_inv received s :
  inv s -> exists s', exec (loop NEC ONKYO received) s = Some s' /\ inv s'.
Proof.
  intros Hi. unfold loop.
  destruct received as [d|]; [|exists s; auto].
  destruct (negb (Irmp.protocol d =? ONKYO)); [|exists s; auto].
  destruct ((Irmp.protocol d =? NEC) && (Irmp.address d =? 0));
    [|exists s; auto].
  match goal with |- context [if ?c then _ else _] => destruct c end;
    [|exists s; auto].
  apply processNECCommand_inv. exact Hi.
Qed.

Lemma run_loop_inv received : forall s,
  inv s -> exists s', exec (run_loop NEC ONKYO received) s = Some s' /\ inv s'.
Proof.
  induction received as [|r rest IH]; intros s Hi.
  - exists s. auto.
  - destruct (loop_inv r s Hi) as (s1 & E1 & I1).
    destruct (IH s1 I1) as (s2 & E2 & I2).
    exists s2. cbn [run_loop]. rewrite (exec_bind _ _ _ _ E1). auto.
Qed.

(** X18: started on an EEPROM that holds a colour with both channels in
    1..255, [setup] followed by any sequence of polls of [loop] returns (no
    command divides by zero) and ends in a state with valid colours. *)
Theorem firmware_keeps_colors_valid received s :
  valid_color (persisted s) -> 0 <= current_preset s < 5 ->
  exists s', exec (firmware NEC ONKYO received) s = Some s' /\ inv s'.
Proof.
  intros He Hp.
  destruct (setup_inv s He Hp) as (s1 & E1 & I1 & _).
  destruct (run_loop_inv received s1 I1) as (s2 & E2 & I2).
  exists s2. unfold firmware. rewrite (exec_bind _ _ _ _ E1). auto.
Qed.

(** X19: a frame with a repeat flag never changes [is_on], [is_night],
    [current_preset] or the EEPROM: only the brightness and colour steps
    are accepted as repeats. *)
Theorem repeated_frame_only_adjusts irmp_data s :
  inv s -> Irmp.flags irmp_data <> 0 ->
  exists s',
    exec (loop NEC ONKYO (Some irmp_data)) s = Some s' /\
    is_on s' = is_on s /\ is_night s' = is_night s /\
    current_preset s' = current_preset s /\ EEPROM s' = EEPROM s.
Proof.
  intros Hi Hf. unfold loop.
  destruct (negb (Irmp.protocol irmp_data =? ONKYO)); [|exists s; auto].
  destruct ((Irmp.protocol irmp_data =? NEC) && (Irmp.address irmp_data =? 0));
    [|exists s; auto].
  destruct (Z.eqb_spec (Irmp.flags irmp_data) 0) as [|_]; [contradiction|].
  cbn [orb].
  match goal with |- context [if ?c then _ else _] => destruct c eqn:Hc end;
    [|exists s; auto].
  rewrite !orb_true_iff, !Z.eqb_eq in Hc.
  destruct (processNECCommand_summary (Irmp.command irmp_data) s Hi)
    as (s' & E & F1 & F2 & F3 & F4 & _).
  exists s'. split; [exact E|].
  split; [apply F1; lia|]. split; [apply F2; lia|].
  split; [apply F3; lia | apply F4; lia].
Qed.

(** X20: a frame of another protocol, of another address, or a repeat of
    a command other than 7, 9, 25 and 64 changes nothing at all, and
    neither does a poll without a frame. *)
Theorem foreign_frame_ignored irmp_data s :
  Irmp.protocol irmp_data <> NEC \/ Irmp.protocol irmp_data = ONKYO \/
  Irmp.address irmp_data <> 0 \/
  (Irmp.flags irmp_data <> 0 /\
   ~ In (Irmp.command irmp_data) [7; 9; 25; 64]) ->
  loop NEC ONKYO (Some irmp_data) s = Some (tt, s) /\
  loop NEC ONKYO None s = Some (tt, s).
Proof.
  intros H. split; [|reflexivity]. unfold loop.
  destruct (Z.eqb_spec (Irmp.protocol irmp_data) ONKYO); cbn [negb];
    [reflexivity|].
  destruct (Z.eqb_spec (Irmp.protocol irmp_data) NEC); cbn [andb];
    [|reflexivity].
  destruct (Z.eqb_spec (Irmp.address irmp_data) 0); [|reflexivity].
  destruct H as [H|[H|[H|[Hf Hc]]]]; try contradiction.
  cbn [In] in Hc.
  destruct (Z.eqb_spec (Irmp.flags irmp_data) 0); [contradiction|].
  destruct (Z.eqb_spec (Irmp.command irmp_data) 7); [lia|].
  destruct (Z.eqb_spec (Irmp.command irmp_data) 9); [lia|].
  destruct (Z.eqb_spec (Irmp.command irmp_data) 25); [lia|].
  destruct (Z.eqb_spec (Irmp.command irmp_data) 64); [lia|].
  reflexivity.
Qed.
End LoopProperties.

Lemma firmware_keeps_colors_valid_witness :
  valid_color (persisted reset_state) /\
  0 <= current_preset reset_state < 5 /\
  exists s',
    exec (firmware 2 56
            [Some (Irmp.mkIRMP 2 0 9 0); None; Some (Irmp.mkIRMP 2 0 28 0)])
         reset_state = Some s' /\
    inv s'.
Proof.
  assert (He : valid_color (persisted reset_state))
    by (split; cbv; split; discriminate).
  assert (Hp : 0 <= current_preset reset_state < 5) by (cbn; lia).
  exact (conj He (conj Hp
    (firmware_keeps_colors_valid 2 56 _ reset_state He Hp))).
Defined.

Lemma repeated_frame_only_adjusts_witness :
  inv reset_state /\ Irmp.flags (Irmp.mkIRMP 2 0 69 1) <> 0 /\
  exists s',
    exec (loop 2 56 (Some (Irmp.mkIRMP 2 0 69 1))) reset_state = Some s' /\
    is_on s' = is_on reset_state /\ is_night s' = is_night reset_state /\
    current_preset s' = current_preset reset_state /\
    EEPROM s' = EEPROM reset_state.
Proof.
  assert (Hi : inv reset_state) by (repeat split; cbv; discriminate).
  assert (Hf : Irmp.flags (Irmp.mkIRMP 2 0 69 1) <> 0) by (cbn; lia).
  exact (conj Hi (conj Hf
    (repeated_frame_only_adjusts 2 56 (Irmp.mkIRMP 2 0 69 1) reset_state
       Hi Hf))).
Defined.

Lemma foreign_frame_ignored_witness :
  (Irmp.protocol (Irmp.mkIRMP 2 5 69 0) <> 2 \/
   Irmp.protocol (Irmp.mkIRMP 2 5 69 0) = 56 \/
   Irmp.address (Irmp.mkIRMP 2 5 69 0) <> 0 \/
   (Irmp.flags (Irmp.mkIRMP 2 5 69 0) <> 0 /\
    ~ In (Irmp.command (Irmp.mkIRMP 2 5 69 0)) [7; 9; 25; 64])) /\
  loop 2 56 (Some (Irmp.mkIRMP 2 5 69 0)) reset_state
    = Some (tt, reset_state) /\
  loop 2 56 None reset_state = Some (tt, reset_state).
Proof.
  assert (H : Irmp.protocol (Irmp.mkIRMP 2 5 69 0) <> 2 \/
              Irmp.protocol (Irmp.mkIRMP 2 5 69 0) = 56 \/
              Irmp.address (Irmp.mkIRMP 2 5 69 0) <> 0 \/
              (Irmp.flags (Irmp.mkIRMP 2 5 69 0) <> 0 /\
               ~ In (Irmp.command (Irmp.mkIRMP 2 5 69 0)) [7; 9; 25; 64]))
    by (right; right; left; cbn; lia).
  exact (conj H
    (foreign_frame_ignored 2 56 (Irmp.mkIRMP 2 5 69 0) reset_state H)).
Defined.

(** ** The busy wait *)

Lemma mdelay_inner_run fuel : forall i blocks,
  0 <= i <= 700 -> (Z.to_nat (700 - i) < fuel)%nat ->
  mdelay_inner fuel i blocks = Some (blocks + (700 - i)).
Proof.
  induction fuel as [|fuel IH]; intros i blocks Hi Hf; [lia|].
  cbn [mdelay_inner]. destruct (Z.ltb_spec i 700).
  - rewrite u16_small by lia. rewrite IH by lia. f_equal. lia.
  - f_equal. lia.
Qed.

Lemma mdelay_outer_run fuel : forall j time blocks,
  1 <= j -> 0 <= time <= 65535 -> (Z.to_nat (time - j) < fuel)%nat ->
  mdelay_outer fuel j time blocks
  = Some (blocks + 700 * Z.max 0 (time - j)).
Proof.
  induction fuel as [|fuel IH]; intros j time blocks Hj Ht Hf; [lia|].
  cbn [mdelay_outer]. destruct (Z.ltb_spec j time).
  - rewrite (mdelay_inner_run 701 0 blocks) by lia.
    rewrite u16_small by lia. rewrite IH by lia. f_equal. lia.
  - f_equal. lia.
Qed.

(** X21: [mdelay(time)] ends, after [700 * (time - 1)] executions of its
    [asm] block: one millisecond unit less than asked for, and none at all
    for [time] 0 or 1. *)
Theorem mdelay_waits_one_less time :
  0 <= time <= 65535 ->
  mdelay_blocks time = Some (700 * Z.max 0 (time - 1)).
Proof.
  intros Ht. unfold mdelay_blocks. rewrite u16_small by lia.
  rewrite mdelay_outer_run by lia. f_equal.
Qed.

Lemma mdelay_waits_one_less_witness :
  0 <= 10 <= 65535 /\ mdelay_blocks 10 = Some (700 * Z.max 0 (10 - 1)).
Proof.
  assert (Ht : 0 <= 10 <= 65535) by lia.
  exact (conj Ht (mdelay_waits_one_less 10 Ht)).
Defined.

(** ** Where the hypotheses above are needed *)

(** A fade from off to off sends fifty-one times {1,1} and then {0,0}: with
    a stop value of 0 the sequence of a channel does go down at the end. *)
Example fade_off_to_off :
  option_map (fun s => pwm_values (trace s))
    (exec (fadePWM (mkPWM 0 0) (mkPWM 0 0) default_durationMs) reset_state)
  = Some (replicate 51 (mkPWM 1 1) ++ [mkPWM 0 0]).
Proof. reflexivity. Qed.

(** At a warm channel of 4 the colder step floors at 1 and the warmer step
    comes back to 5. *)
Example colder_then_warmer_at_floor :
  option_map whiteColor
    (exec (run_commands [25; 64])
          (set_whiteColor (mkPWM 100 4) reset_state))
  = Some (mkPWM 100 5).
Proof. reflexivity. Qed.

(** The fixed level 10% leaves a brightness of 128 beside the colour
    {25,25}. *)
Example fixed_level_unlinks :
  option_map (fun s => (whiteColor s, brightness s))
    (exec (processNECCommand 12) reset_state)
  = Some (mkPWM 25 25, 128).
Proof. reflexivity. Qed.

(** A negative duration reaches [mdelay] as a large unsigned number. *)
Example fade_negative_duration :
  option_map (fun s => head (delay_values (trace s)))
    (exec (fadePWM (mkPWM 1 1) (mkPWM 1 1) (-50)) reset_state)
  = Some (Some 65535).
Proof. reflexivity. Qed.
